(** * convert.py: the LegendKeeper to Foundry VTT converter

    A shallow embedding of [convert.py].  The program works on the
    objects [json.load] returns, so the embedding has one type [value]
    of Python objects, a [result] type for the exceptions the code can
    raise, and one Rocq function per Python function, named after it.

    Scope of the data model: JSON numerals are the integers ([int]);
    numerals with a fraction or an exponent ([float]) are left out.
    A [str] is its UTF-8 byte string.  A [dict] is the list of its
    bindings in insertion order; [json.load] never produces a repeated
    key, and [dict_get] reads the first binding of a key.  The
    interpreter's recursion limit is not modelled: the functions are
    defined on trees of every depth. *)

From stdpp Require Import gmap strings list fin_maps.
From Stdlib Require Import ZArith DecimalString Ascii String Permutation.

#[local] Open Scope string_scope.
#[local] Open Scope Z_scope.

(** ** Python objects *)

#[local] Unset Elimination Schemes.
Inductive value : Type :=
  | PNone
  | PBool (b : bool)
  | PInt (z : Z)
  | PStr (s : string)
  | PList (l : list value)
  | PDict (d : list (string * value)).
#[local] Set Elimination Schemes.

(** Induction over a JSON tree: the items of a list and the values of
    a dict are smaller. *)
Section value_ind.
Variable P : value -> Prop.
Hypothesis HNone : P PNone.
Hypothesis HBool : forall b, P (PBool b).
Hypothesis HInt : forall z, P (PInt z).
Hypothesis HStr : forall s, P (PStr s).
Hypothesis HList : forall l, Forall P l -> P (PList l).
Hypothesis HDict : forall d, Forall (fun kv => P (snd kv)) d -> P (PDict d).

Fixpoint value_ind (v : value) : P v :=
  match v with
  | PNone => HNone
  | PBool b => HBool b
  | PInt z => HInt z
  | PStr s => HStr s
  | PList l =>
      HList l ((fix items (l : list value) : Forall P l :=
                  match l with
                  | [] => List.Forall_nil _
                  | x :: l' => List.Forall_cons _ x l' (value_ind x) (items l')
                  end) l)
  | PDict d =>
      HDict d ((fix bindings (d : list (string * value))
                  : Forall (fun kv => P (snd kv)) d :=
                  match d with
                  | [] => List.Forall_nil _
                  | kv :: d' =>
                      List.Forall_cons _ kv d' (value_ind (snd kv)) (bindings d')
                  end) d)
  end.
End value_ind.

(** ** Exceptions *)

Inductive exn : Type :=
  | AttributeError   (* [x.get], [x.startswith] on an object without it *)
  | TypeError        (* iterating a non-iterable, hashing a list or dict,
                        joining or adding a non-[str] *)
  | IndexError.      (* [l[0]] on an empty list *)

Inductive result (A : Type) : Type :=
  | Ok (a : A)
  | Raise (e : exn).
Arguments Ok {A} a.
Arguments Raise {A} e.

Definition bind {A B} (c : result A) (k : A -> result B) : result B :=
  match c with
  | Ok a => k a
  | Raise e => Raise e
  end.

Notation "'let*' x ':=' c 'in' k" := (bind c (fun x => k))
  (at level 10, x name, c at level 100, k at level 200).
Notation "'let*' ' pat ':=' c 'in' k" :=
  (bind c (fun x => match x with pat => k end))
  (at level 10, pat pattern, c at level 100, k at level 200).

(** [[f(x) for x in l]]: left to right, the first exception wins. *)
Fixpoint mapM {A B} (f : A -> result B) (l : list A) : result (list B) :=
  match l with
  | [] => Ok []
  | x :: l' => let* y := f x in let* ys := mapM f l' in Ok (y :: ys)
  end.

(** A [for] loop that threads one variable. *)
Fixpoint foldM {A S} (f : S -> A -> result S) (l : list A) (s : S)
  : result S :=
  match l with
  | [] => Ok s
  | x :: l' => let* s' := f s x in foldM f l' s'
  end.

(** ** Built-in operations of Python used by the program *)

Definition dq : string := String (ascii_of_nat 34) "".

(** [bool(v)] *)
Definition py_truthy (v : value) : bool :=
  match v with
  | PNone => false
  | PBool b => b
  | PInt z => negb (z =? 0)
  | PStr s => negb (String.eqb s "")
  | PList l => match l with [] => false | _ => true end
  | PDict d => match d with [] => false | _ => true end
  end.

(** [v == 'lit'] for a string literal *)
Definition py_eq_str (v : value) (lit : string) : bool :=
  match v with
  | PStr s => String.eqb s lit
  | _ => false
  end.

(** [sub in s] on strings *)
Fixpoint str_contains (sub s : string) : bool :=
  String.prefix sub s ||
  match s with
  | EmptyString => false
  | String _ s' => str_contains sub s'
  end.

Definition str_of_Z (z : Z) : string := NilZero.string_of_int (Z.to_int z).

Definition hex_digit (n : N) : ascii :=
  nth (N.to_nat n) (list_ascii_of_string "0123456789abcdef") "0"%char.

(** One character of [repr(s)] with [q] the chosen quote.  Bytes above
    0x7f are kept, as Python keeps printable non-ASCII characters. *)
Definition repr_char (q c : ascii) : string :=
  let n := N_of_ascii c in
  if (n =? 92)%N then "\\"
  else if Ascii.eqb c q then String "\" (String c "")
  else if (n =? 9)%N then "\t"
  else if (n =? 10)%N then "\n"
  else if (n =? 13)%N then "\r"
  else if ((n <? 32) || (n =? 127))%N
       then "\x" +:+ String (hex_digit (n / 16)) (String (hex_digit (n mod 16)) "")
  else String c "".

Fixpoint repr_chars (q : ascii) (s : string) : string :=
  match s with
  | EmptyString => ""
  | String c s' => repr_char q c +:+ repr_chars q s'
  end.

(** [repr(s)] of a [str]: single quotes unless the text has a single
    quote and no double quote. *)
Definition repr_str (s : string) : string :=
  let q := if str_contains "'" s && negb (str_contains dq s)
           then ascii_of_nat 34 else "'"%char in
  String q (repr_chars q s +:+ String q "").

Fixpoint join_with (sep : string) (l : list string) : string :=
  match l with
  | [] => ""
  | [x] => x
  | x :: l' => x +:+ sep +:+ join_with sep l'
  end.

(** [repr(v)] *)
Fixpoint py_repr (v : value) : string :=
  match v with
  | PNone => "None"
  | PBool true => "True"
  | PBool false => "False"
  | PInt z => str_of_Z z
  | PStr s => repr_str s
  | PList l => "[" +:+ join_with ", " (map py_repr l) +:+ "]"
  | PDict d =>
      "{" +:+ join_with ", "
                (map (fun kv => repr_str (fst kv) +:+ ": " +:+ py_repr (snd kv)) d)
          +:+ "}"
  end.

(** [str(v)], what an f-string field [{v}] inserts *)
Definition py_str (v : value) : string :=
  match v with
  | PStr s => s
  | _ => py_repr v
  end.

(** Keys of a [dict]: the hashable objects.  [True] and [1] are the same
    key, as are [False] and [0]. *)
Inductive key : Type :=
  | KNone
  | KInt (z : Z)
  | KStr (s : string).

#[global] Instance key_eq_dec : EqDecision key.
Proof. solve_decision. Defined.

#[global] Instance key_countable : Countable key.
Proof.
  refine (inj_countable'
            (fun k => match k with
                      | KNone => inl ()
                      | KInt z => inr (inl z)
                      | KStr s => inr (inr s)
                      end)
            (fun x => match x with
                      | inl _ => KNone
                      | inr (inl z) => KInt z
                      | inr (inr s) => KStr s
                      end) _).
  intros []; reflexivity.
Defined.

(** [hash(v)]: a list or a dict is unhashable. *)
Definition py_hash (v : value) : result key :=
  match v with
  | PNone => Ok KNone
  | PBool b => Ok (KInt (if b then 1 else 0))
  | PInt z => Ok (KInt z)
  | PStr s => Ok (KStr s)
  | PList _ | PDict _ => Raise TypeError
  end.

(** [d.get(k)] on the bindings of a dict *)
Fixpoint dict_get (k : string) (d : list (string * value)) : option value :=
  match d with
  | [] => None
  | (k', v) :: d' => if String.eqb k' k then Some v else dict_get k d'
  end.

(** [obj.get(k, dflt)]: only a dict has [get]. *)
Definition py_get (obj : value) (k : string) (dflt : value) : result value :=
  match obj with
  | PDict d => Ok (default dflt (dict_get k d))
  | _ => Raise AttributeError
  end.

Fixpoint str_chars (s : string) : list value :=
  match s with
  | EmptyString => []
  | String c s' => PStr (String c "") :: str_chars s'
  end.

(** The items a [for] loop over [v] visits: the items of a list, the
    keys of a dict, the characters of a [str] (here its bytes: the
    program only ever calls [get] on such an item or renders it, which
    does not tell a character from a byte). *)
Definition py_iter (v : value) : result (list value) :=
  match v with
  | PList l => Ok l
  | PDict d => Ok (map (fun kv => PStr (fst kv)) d)
  | PStr s => Ok (str_chars s)
  | PNone | PBool _ | PInt _ => Raise TypeError
  end.

(** [''.join(items)]: every item must be a [str]. *)
Fixpoint py_join (items : list value) : result string :=
  match items with
  | [] => Ok ""
  | PStr s :: items' => let* rest := py_join items' in Ok (s +:+ rest)
  | _ :: _ => Raise TypeError
  end.

(** [s.startswith(p)]: only a [str] has it among JSON objects. *)
Definition py_startswith (v : value) (p : string) : result bool :=
  match v with
  | PStr s => Ok (String.prefix p s)
  | _ => Raise AttributeError
  end.

(** [a + b] where [a] is a [str] *)
Definition py_str_add (a : string) (b : value) : result string :=
  match b with
  | PStr s => Ok (a +:+ s)
  | _ => Raise TypeError
  end.

(** ** The rich-text transducer *)

(** An entry of [resource_id_map]: the dict [{'id': ..., 'type': ...}]
    that [main] stores for a resource. *)
Record mapping : Type := { id : string; type : string }.

(** [[f(child) for child in node.get('content', [])]] on the bindings
    of a node.  A [for] over a dict or a [str] visits strings, and
    [process_node] returns [""] for every object that is not a dict
    (see [map_content_iter] below). *)
Fixpoint map_content (f : value -> result value) (d : list (string * value))
  : result (list value) :=
  match d with
  | [] => Ok []
  | (k, v) :: d' =>
      if String.eqb k "content" then
        match v with
        | PList l => mapM f l
        | PDict kv => Ok (map (fun _ => PStr "") kv)
        | PStr s => Ok (map (fun _ => PStr "") (str_chars s))
        | PNone | PBool _ | PInt _ => Raise TypeError
        end
      else map_content f d'
  end.

(** One turn of the loop over [marks] in a [text] node. *)
Definition apply_mark (text mark : value) : result value :=
  let* mark_type := py_get mark "type" (PStr "") in
  if py_eq_str mark_type "strong" then
    Ok (PStr ("<strong>" +:+ py_str text +:+ "</strong>"))
  else if py_eq_str mark_type "em" then
    Ok (PStr ("<em>" +:+ py_str text +:+ "</em>"))
  else if py_eq_str mark_type "code" then
    Ok (PStr ("<code>" +:+ py_str text +:+ "</code>"))
  else if py_eq_str mark_type "underline" then
    Ok (PStr ("<u>" +:+ py_str text +:+ "</u>"))
  else if py_eq_str mark_type "strike" then
    Ok (PStr ("<s>" +:+ py_str text +:+ "</s>"))
  else Ok text.

Section transducer.
Variable image_map : gmap string string.
Variable resource_id_map : gmap key mapping.

(** [src in image_map] followed by [image_map[src]]: the keys of
    [image_map] are strings. *)
Definition image_map_lookup (src : value) : result (option string) :=
  let* k := py_hash src in
  match k with
  | KStr s => Ok (image_map !! s)
  | _ => Ok None
  end.

Fixpoint process_node (node : value) : result value :=
  match node with
  | PDict d =>
      let node_type := default (PStr "") (dict_get "type" d) in
      let attrs := default (PDict []) (dict_get "attrs" d) in
      let marks := default (PList []) (dict_get "marks" d) in
      (* ''.join(process_node(child) for child in node_content) *)
      let children : result string :=
        let* rendered := map_content process_node d in py_join rendered in
      if py_eq_str node_type "doc" then
        let* inner := children in Ok (PStr inner)
      else if py_eq_str node_type "heading" then
        let* level := py_get attrs "level" (PInt 2) in
        let* inner := children in
        Ok (PStr ("<h" +:+ py_str level +:+ ">" +:+ inner
                  +:+ "</h" +:+ py_str level +:+ ">"))
      else if py_eq_str node_type "paragraph" then
        let* inner := children in
        Ok (PStr (if py_truthy (PStr inner)
                  then "<p>" +:+ inner +:+ "</p>" else "<p></p>"))
      else if py_eq_str node_type "text" then
        let text := default (PStr "") (dict_get "text" d) in
        let* items := py_iter marks in
        foldM apply_mark items text
      else if py_eq_str node_type "bulletList" then
        let* inner := children in Ok (PStr ("<ul>" +:+ inner +:+ "</ul>"))
      else if py_eq_str node_type "orderedList" then
        let* inner := children in Ok (PStr ("<ol>" +:+ inner +:+ "</ol>"))
      else if py_eq_str node_type "listItem" then
        let* inner := children in Ok (PStr ("<li>" +:+ inner +:+ "</li>"))
      else if py_eq_str node_type "image" then
        let* src := py_get attrs "src" (PStr "") in
        let* alt := py_get attrs "alt" (PStr "") in
        let* local := image_map_lookup src in
        let src := match local with Some path => PStr path | None => src end in
        Ok (PStr ("<img src=" +:+ dq +:+ py_str src +:+ dq +:+ " alt=" +:+ dq
                  +:+ py_str alt +:+ dq +:+ " />"))
      else if py_eq_str node_type "rule" then
        Ok (PStr "<hr />")
      else if py_eq_str node_type "codeBlock" then
        let* inner := children in
        Ok (PStr ("<pre><code>" +:+ inner +:+ "</code></pre>"))
      else if py_eq_str node_type "blockquote" then
        let* inner := children in
        Ok (PStr ("<blockquote>" +:+ inner +:+ "</blockquote>"))
      else if py_eq_str node_type "bodiedExtension" then
        let* ext_key := py_get attrs "extensionKey" (PStr "") in
        let* parameters := py_get attrs "parameters" (PDict []) in
        let* ext_title := py_get parameters "extensionTitle" (PStr "Secret") in
        let* inner := children in
        Ok (PStr ("<div class=" +:+ dq +:+ "secret" +:+ dq +:+ "><strong>"
                  +:+ py_str ext_title +:+ ":</strong> " +:+ inner +:+ "</div>"))
      else if py_eq_str node_type "panel" then
        let* panel_type := py_get attrs "panelType" (PStr "info") in
        let* inner := children in
        Ok (PStr ("<div class=" +:+ dq +:+ "panel panel-" +:+ py_str panel_type
                  +:+ dq +:+ ">" +:+ inner +:+ "</div>"))
      else if py_eq_str node_type "layoutSection" then
        let* inner := children in
        Ok (PStr ("<div class=" +:+ dq +:+ "layout-section" +:+ dq +:+ ">"
                  +:+ inner +:+ "</div>"))
      else if py_eq_str node_type "layoutColumn" then
        let* width := py_get attrs "width" (PInt 50) in
        let* inner := children in
        Ok (PStr ("<div class=" +:+ dq +:+ "layout-column" +:+ dq +:+ " style="
                  +:+ dq +:+ "width:" +:+ py_str width +:+ "%" +:+ dq +:+ ">"
                  +:+ inner +:+ "</div>"))
      else if py_eq_str node_type "mention" then
        let* mention_text := py_get attrs "text" (PStr "") in
        let* resource_id := py_get attrs "id" (PStr "") in
        let* k := py_hash resource_id in
        match resource_id_map !! k with
        | Some mapping =>
            let foundry_id := id mapping in
            let doc_type := type mapping in
            Ok (PStr ("@UUID[" +:+ doc_type +:+ "." +:+ foundry_id +:+ "]{"
                      +:+ py_str mention_text +:+ "}"))
        | None => Ok mention_text
        end
      else if py_eq_str node_type "inlineExtension" then
        let* text := py_get attrs "text" (PStr "") in
        let* parameters := py_get attrs "parameters" (PDict []) in
        let* icon := py_get parameters "icon" (PStr "") in
        if py_truthy icon
        then Ok (PStr ("<i class=" +:+ dq +:+ py_str icon +:+ dq +:+ "></i> "
                       +:+ py_str text))
        else Ok text
      else
        let* inner := children in Ok (PStr inner)
  | PNone | PBool _ | PInt _ | PStr _ | PList _ => Ok (PStr "")
  end.
End transducer.

Definition is_dict (v : value) : bool :=
  match v with
  | PDict _ => true
  | _ => false
  end.

(** [resource_id_map=None] is the default argument. *)
Definition convert_prosemirror_to_html (content : value)
    (image_map : gmap string string)
    (resource_id_map : option (gmap key mapping)) : result value :=
  if negb (py_truthy content) || negb (is_dict content) then Ok (PStr "")
  else
    let resource_id_map := default ∅ resource_id_map in
    process_node image_map resource_id_map content.

(** ** The asset locator *)

Definition asset_host : string := "assets.legendkeeper.com".

(** [if k in obj and isinstance(obj[k], str) and asset_host in obj[k]:
    urls.add(obj[k])] *)
Definition add_asset (k : string) (d : list (string * value))
    (urls : gset string) : gset string :=
  match dict_get k d with
  | Some (PStr s) => if str_contains asset_host s then {[ s ]} ∪ urls else urls
  | _ => urls
  end.

(** The closure [extract_urls] adds to the set [urls] of the enclosing
    call; here the set is passed in and returned. *)
Fixpoint extract_urls (obj : value) (urls : gset string) : gset string :=
  match obj with
  | PDict d =>
      let urls := add_asset "url" d urls in
      let urls := add_asset "mapId" d urls in
      fold_left (fun urls kv => extract_urls (snd kv) urls) d urls
  | PList l => fold_left (fun urls item => extract_urls item urls) l urls
  | PNone | PBool _ | PInt _ | PStr _ => urls
  end.

Definition collect_image_urls (data : value) : gset string :=
  extract_urls data ∅.

(** ** The classifier *)

(** [v and v.startswith(p)] as a condition *)
Definition truthy_and_startswith (v : value) (p : string) : result bool :=
  if py_truthy v then py_startswith v p else Ok false.

(** The loop over [properties] inside [classify_resource]: [true] when
    it reaches [return 'Scene']. *)
Fixpoint image_property_scan (props : list value) : result bool :=
  match props with
  | [] => Ok false
  | prop :: rest =>
      let* ty := py_get prop "type" PNone in
      if py_eq_str ty "IMAGE" then
        let* data := py_get prop "data" (PDict []) in
        let* url := py_get data "url" (PStr "") in
        let* http := truthy_and_startswith url "http" in
        if http then Ok true else image_property_scan rest
      else image_property_scan rest
  end.

(** The loop over [documents]; it ends at the first map document. *)
Fixpoint classify_documents (resource : value) (docs : list value)
  : result string :=
  match docs with
  | [] => Ok "JournalEntry"
  | doc :: rest =>
      let* ty := py_get doc "type" PNone in
      if py_eq_str ty "map" then
        let* map_data := py_get doc "map" (PDict []) in
        let* map_id := py_get map_data "mapId" (PStr "") in
        let* http := truthy_and_startswith map_id "http" in
        if http then Ok "Scene"
        else
          let* properties := py_get resource "properties" (PList []) in
          let* props := py_iter properties in
          let* found := image_property_scan props in
          if found then Ok "Scene"
          else Ok "JournalEntry"      (* break *)
      else classify_documents resource rest
  end.

Definition classify_resource (resource : value) : result string :=
  let* documents := py_get resource "documents" (PList []) in
  let* docs := py_iter documents in
  classify_documents resource docs.

(** ** Identifiers *)

(** [string.ascii_letters + string.digits] *)
Definition chars : string :=
  "abcdefghijklmnopqrstuvwxyzABCDEFGHIJKLMNOPQRSTUVWXYZ0123456789".

Section random.
(** The outcomes of the random generator: draw number [n] of the run
    is [tape n].  The state of the generator is the number of draws
    made so far. *)
Variable tape : nat -> nat.

(** [random.choice(chars)] *)
Definition random_choice (pos : nat) : ascii * nat :=
  (nth (tape pos mod String.length chars) (list_ascii_of_string chars)
       "a"%char,
   S pos).

Fixpoint random_chars (n : nat) (pos : nat) : string * nat :=
  match n with
  | O => ("", pos)
  | S n' =>
      let '(c, pos) := random_choice pos in
      let '(s, pos) := random_chars n' pos in
      (String c s, pos)
  end.

Definition generate_id (length : nat) (pos : nat) : string * nat :=
  random_chars length pos.

(** The default [length=16]. *)
Definition id_length : nat := 16.

(** ** The document builders *)

Record page : Type := {
  page_id : string;         (* "_id" *)
  page_name : value;        (* "name" *)
  page_content : value;     (* "text" / "content" *)
  page_sort : nat           (* "sort" *)
}.

(** The fields of a journal entry that depend on the resource; the
    rest of the dict is constant. *)
Record journal_entry : Type := {
  entry_id : string;                (* "_id" *)
  entry_name : value;               (* "name" *)
  entry_pages : list page;          (* "pages" *)
  entry_legendkeeper_id : value;    (* flags.tennisfel.legendkeeper_id *)
  entry_tags : value                (* flags.tennisfel.tags *)
}.

Definition placeholder_content : string := "<p>No content</p>".

Section journal.
Variable image_map : gmap string string.
Variable resource_id_map : option (gmap key mapping).

(** One turn of the loop over [documents]; the state is [pages]
    and the generator. *)
Definition journal_page_step (st : list page * nat) (doc : value)
  : result (list page * nat) :=
  let '(pages, pos) := st in
  let* ty := py_get doc "type" PNone in
  if py_eq_str ty "page" then
    let '(page_id, pos) := generate_id id_length pos in
    let* page_name := py_get doc "name" (PStr "Main") in
    let* content := py_get doc "content" (PDict []) in
    let* html_content :=
      convert_prosemirror_to_html content image_map resource_id_map in
    (* pages.append(page) *)
    Ok (app pages [ {| page_id := page_id; page_name := page_name;
                       page_content := html_content;
                       page_sort := List.length pages |} ], pos)
  else Ok (pages, pos).

Definition create_journal_entry (resource : value) (pos : nat)
  : result (journal_entry * nat) :=
  let '(resource_id, pos) := generate_id id_length pos in
  let* name := py_get resource "name" (PStr "Untitled") in
  let* documents := py_get resource "documents" (PList []) in
  let* docs := py_iter documents in
  let* '(pages, pos) := foldM journal_page_step docs ([], pos) in
  (* if not pages: pages.append({...}) *)
  let '(pages, pos) :=
    match pages with
    | [] =>
        let '(page_id, pos) := generate_id id_length pos in
        ([ {| page_id := page_id; page_name := PStr "Main";
              page_content := PStr placeholder_content;
              page_sort := 0 |} ], pos)
    | _ :: _ => (pages, pos)
    end in
  let* banner := py_get resource "banner" (PDict []) in
  let* banner_url := py_get banner "url" (PStr "") in
  let* local :=
    if py_truthy banner_url then image_map_lookup image_map banner_url
    else Ok None in
  let* pages :=
    match local with
    | Some path =>
        match pages with
        | first :: rest =>
            let* content :=
              py_str_add ("<img src=" +:+ dq +:+ path +:+ dq +:+ " alt="
                          +:+ dq +:+ py_str name +:+ dq +:+ " />")
                         (page_content first) in
            Ok ({| page_id := page_id first; page_name := page_name first;
                   page_content := PStr content;
                   page_sort := page_sort first |} :: rest)
        | [] => Raise IndexError
        end
    | None => Ok pages
    end in
  let* legendkeeper_id := py_get resource "id" (PStr "") in
  let* tags := py_get resource "tags" (PList []) in
  Ok ({| entry_id := resource_id; entry_name := name;
         entry_pages := pages;
         entry_legendkeeper_id := legendkeeper_id;
         entry_tags := tags |}, pos).
End journal.

(** The loop over [properties] of the actor and item builders: the
    local path of the first IMAGE property whose url is in
    [image_map], else the default icon. *)
Fixpoint first_local_image (image_map : gmap string string)
    (props : list value) (img_url : string) : result string :=
  match props with
  | [] => Ok img_url
  | prop :: rest =>
      let* ty := py_get prop "type" PNone in
      if py_eq_str ty "IMAGE" then
        let* data := py_get prop "data" (PDict []) in
        let* url := py_get data "url" (PStr "") in
        let* local :=
          if py_truthy url then image_map_lookup image_map url
          else Ok None in
        match local with
        | Some path => Ok path        (* break *)
        | None => first_local_image image_map rest img_url
        end
      else first_local_image image_map rest img_url
  end.

(** One turn of the loop that gathers the page bodies:
    [text += convert_prosemirror_to_html(content, image_map)]. *)
Definition gather_step (image_map : gmap string string) (text : string)
    (doc : value) : result string :=
  let* ty := py_get doc "type" PNone in
  if py_eq_str ty "page" then
    let* content := py_get doc "content" (PDict []) in
    let* html := convert_prosemirror_to_html content image_map None in
    py_str_add text html
  else Ok text.

Record actor : Type := {
  actor_id : string;                (* "_id" *)
  actor_name : value;               (* "name", prototypeToken.name *)
  actor_img : string;               (* "img", prototypeToken.texture.src *)
  actor_biography : string;         (* system.biography.value *)
  actor_legendkeeper_id : value;
  actor_tags : value
}.

Definition create_actor_entry (resource : value)
    (image_map : gmap string string) (pos : nat) : result (actor * nat) :=
  let '(actor_id, pos) := generate_id id_length pos in
  let* name := py_get resource "name" (PStr "Untitled") in
  let* properties := py_get resource "properties" (PList []) in
  let* props := py_iter properties in
  let* img_url := first_local_image image_map props "icons/svg/mystery-man.svg" in
  let* documents := py_get resource "documents" (PList []) in
  let* docs := py_iter documents in
  let* biography := foldM (gather_step image_map) docs "" in
  let* legendkeeper_id := py_get resource "id" (PStr "") in
  let* tags := py_get resource "tags" (PList []) in
  Ok ({| actor_id := actor_id; actor_name := name; actor_img := img_url;
         actor_biography := biography;
         actor_legendkeeper_id := legendkeeper_id;
         actor_tags := tags |}, pos).

Record item : Type := {
  item_id : string;                 (* "_id" *)
  item_name : value;                (* "name" *)
  item_img : string;                (* "img" *)
  item_description : string;        (* system.description.value *)
  item_legendkeeper_id : value;
  item_tags : value
}.

Definition create_item_entry (resource : value)
    (image_map : gmap string string) (pos : nat) : result (item * nat) :=
  let '(item_id, pos) := generate_id id_length pos in
  let* name := py_get resource "name" (PStr "Untitled") in
  let* properties := py_get resource "properties" (PList []) in
  let* props := py_iter properties in
  let* img_url := first_local_image image_map props "icons/svg/item-bag.svg" in
  let* documents := py_get resource "documents" (PList []) in
  let* docs := py_iter documents in
  let* description := foldM (gather_step image_map) docs "" in
  let* legendkeeper_id := py_get resource "id" (PStr "") in
  let* tags := py_get resource "tags" (PList []) in
  Ok ({| item_id := item_id; item_name := name; item_img := img_url;
         item_description := description;
         item_legendkeeper_id := legendkeeper_id;
         item_tags := tags |}, pos).

(** ** The identifier-resolution pass of [main] *)

(** One turn of the loop "First pass: Build resource ID mapping";
    the state is [resource_id_map] and the generator.  The second dict
    [resource_foundry_ids], filled in the same turn under the same key,
    only feeds the second pass and is left out. *)
Definition resolve_step (st : gmap key mapping * nat) (resource : value)
  : result (gmap key mapping * nat) :=
  let '(resource_id_map, pos) := st in
  let* legendkeeper_id := py_get resource "id" (PStr "") in
  let '(foundry_id, pos) := generate_id id_length pos in
  let* doc_type := classify_resource resource in
  let* k := py_hash legendkeeper_id in
  Ok (<[ k := {| id := foundry_id; type := doc_type |} ]> resource_id_map,
      pos).

Definition build_resource_id_map (resources : list value) (pos : nat)
  : result (gmap key mapping * nat) :=
  foldM resolve_step resources (∅, pos).
End random.

(** ** Definitions used to state the properties *)

(** The concatenation of a list of strings. *)
Definition concat_all (l : list string) : string := foldr String.append "" l.

(** The rendering of a bodiedExtension as the specification words it:
    [<div class="secret"><strong>{title}:</strong>{children}</div>]. *)
Definition secret_div_spec (title children : string) : string :=
  "<div class=" +:+ dq +:+ "secret" +:+ dq +:+ "><strong>" +:+ title
  +:+ ":</strong>" +:+ children +:+ "</div>".

(** The cross-reference token [@UUID[kind.id]{text}]. *)
Definition uuid_token (m : mapping) (text : string) : string :=
  "@UUID[" +:+ type m +:+ "." +:+ id m +:+ "]{" +:+ text +:+ "}".

Definition secret_node : value :=
  PDict [("type", PStr "bodiedExtension");
         ("content", PList [PDict [("type", PStr "text"); ("text", PStr "x")]])].

Definition mention_node : value :=
  PDict [("type", PStr "mention");
         ("attrs", PDict [("id", PStr "r1"); ("text", PStr "Bob")])].

Definition titled_secret_node : value :=
  PDict [("type", PStr "bodiedExtension");
         ("attrs", PDict [("parameters",
                           PDict [("extensionTitle", PStr "GM")])]);
         ("content", PList [PDict [("type", PStr "text"); ("text", PStr "a")];
                            PDict [("type", PStr "text"); ("text", PStr "b")]])].

(** *** Well-shaped rich-text trees *)

Definition is_str (v : value) : bool :=
  match v with
  | PStr _ => true
  | _ => false
  end.

Definition is_hashable (v : value) : bool :=
  match v with
  | PList _ | PDict _ => false
  | _ => true
  end.











(** *** Occurrences of asset references *)

(** The string [s] is the value of a key named [url] or [mapId] in
    some dict of the data graph [obj]. *)
Inductive occurs_under (s : string) : value -> Prop :=
  | occurs_here d k :
      k = "url" \/ k = "mapId" ->
      dict_get k d = Some (PStr s) ->
      occurs_under s (PDict d)
  | occurs_in_dict d k v :
      (k, v) ∈ d -> occurs_under s v -> occurs_under s (PDict d)
  | occurs_in_list l v :
      v ∈ l -> occurs_under s v -> occurs_under s (PList l).

(** [obj'] is [obj] with the lists nested inside it reordered: any
    list, at any depth, may be permuted. *)
Inductive lists_permuted : value -> value -> Prop :=
  | permuted_refl v : lists_permuted v v
  | permuted_trans v1 v2 v3 :
      lists_permuted v1 v2 -> lists_permuted v2 v3 -> lists_permuted v1 v3
  | permuted_list l l' :
      Permutation l l' -> lists_permuted (PList l) (PList l')
  | permuted_item v v' l l' :
      lists_permuted v v' -> lists_permuted (PList l) (PList l') ->
      lists_permuted (PList (v :: l)) (PList (v' :: l'))
  | permuted_binding k v v' d d' :
      lists_permuted v v' -> lists_permuted (PDict d) (PDict d') ->
      lists_permuted (PDict ((k, v) :: d)) (PDict ((k, v') :: d')).



Definition asset_a : string := "https://assets.legendkeeper.com/a.png".
Definition asset_b : string := "https://assets.legendkeeper.com/b.webp".

Definition sample_data : value :=
  PDict [("resources",
          PList [PDict [("banner", PDict [("url", PStr asset_a)])];
                 PDict [("documents",
                         PList [PDict [("map", PDict [("mapId", PStr asset_b)])];
                                PDict [("url", PStr "https://example.org/c.png")]])]])].

(** [sample_data] with the resources and the documents reversed. *)
Definition sample_data_permuted : value :=
  PDict [("resources",
          PList [PDict [("documents",
                         PList [PDict [("url", PStr "https://example.org/c.png")];
                                PDict [("map", PDict [("mapId", PStr asset_b)])]])];
                 PDict [("banner", PDict [("url", PStr asset_a)])]])].

(** *** Resources *)

(** [resource.get(k, [])] when it is a list, for a resource that is a
    dict. *)
Definition list_field (k : string) (resource : value) : list value :=
  match resource with
  | PDict d =>
      match default (PList []) (dict_get k d) with
      | PList l => l
      | _ => []
      end
  | _ => []
  end.

Definition documents_of (resource : value) : list value :=
  list_field "documents" resource.

Definition properties_of (resource : value) : list value :=
  list_field "properties" resource.

(** [obj.get(k, dflt)] of an object that is a dict. *)
Definition field (k : string) (dflt : value) (obj : value) : value :=
  match obj with
  | PDict d => default dflt (dict_get k d)
  | _ => dflt
  end.

(** The document is of the given kind: [doc.get('type') == kind]. *)
Definition has_type (kind : string) (obj : value) : bool :=
  py_eq_str (field "type" PNone obj) kind.

(** A non-empty string that starts with [http]. *)
Definition url_shaped (v : value) : bool :=
  match v with
  | PStr s => negb (String.eqb s "") && String.prefix "http" s
  | _ => false
  end.

(** The map data of the document carries a URL-shaped [mapId]. *)
Definition map_has_image (doc : value) : bool :=
  url_shaped (field "mapId" (PStr "") (field "map" (PDict []) doc)).

(** An IMAGE-typed property that carries a URL-shaped [url]. *)
Definition image_property (prop : value) : bool :=
  has_type "IMAGE" prop
  && url_shaped (field "url" (PStr "") (field "data" (PDict []) prop)).

Definition has_image_property (resource : value) : bool :=
  existsb image_property (properties_of resource).

(** The first map-kind document of the resource. *)
Definition first_map_document (resource : value) : option value :=
  List.find (has_type "map") (documents_of resource).

(** The classification rule as the specification states it: (1) some
    map-kind document carries an image identifier, else (2) some IMAGE
    property carries a URL and there is a map-kind document. *)
Definition classify_spec (resource : value) : string :=
  if existsb (fun doc => has_type "map" doc && map_has_image doc)
             (documents_of resource)
  then "Scene"
  else if has_image_property resource
          && existsb (has_type "map") (documents_of resource)
  then "Scene"
  else "JournalEntry".

(** A url field that the code can test: a string, or a falsy object
    (null, [0], an empty list), on which [startswith] is not called. *)
Definition url_field_ok (v : value) : bool :=
  is_str v || negb (py_truthy v).

(** A document is a dict; a map-kind document has a dict (or nothing)
    as [map], with a testable [mapId]. *)
Definition well_formed_document (doc : value) : bool :=
  is_dict doc
  && (if has_type "map" doc then
        match field "map" (PDict []) doc with
        | PDict m => url_field_ok (default (PStr "") (dict_get "mapId" m))
        | _ => false
        end
      else true).

(** A property is a dict; an IMAGE property has a dict (or nothing) as
    [data], with a testable [url]. *)
Definition well_formed_property (prop : value) : bool :=
  is_dict prop
  && (if has_type "IMAGE" prop then
        match field "data" (PDict []) prop with
        | PDict data => url_field_ok (default (PStr "") (dict_get "url" data))
        | _ => false
        end
      else true).

(** A resource is a dict whose [documents] and [properties], when
    present, are lists of well-formed documents and properties. *)
Definition well_formed_resource (resource : value) : bool :=
  match resource with
  | PDict d =>
      match default (PList []) (dict_get "documents" d),
            default (PList []) (dict_get "properties" d) with
      | PList docs, PList props =>
          forallb well_formed_document docs
          && forallb well_formed_property props
      | _, _ => false
      end
  | _ => false
  end.

Definition map_url : string := "https://assets.legendkeeper.com/m.webp".

(** Two map documents; only the second carries the image. *)
Definition two_maps_resource : value :=
  PDict [("id", PStr "r2");
         ("documents",
          PList [PDict [("type", PStr "map"); ("map", PDict [])];
                 PDict [("type", PStr "map");
                        ("map", PDict [("mapId", PStr map_url)])]])].

(** One page, then a map without image; an IMAGE property with a URL. *)
Definition property_scene_resource : value :=
  PDict [("id", PStr "r3");
         ("documents",
          PList [PDict [("type", PStr "page")];
                 PDict [("type", PStr "map"); ("map", PDict [("mapId", PNone)])]]);
         ("properties",
          PList [PDict [("type", PStr "TEXT"); ("data", PStr "note")];
                 PDict [("type", PStr "IMAGE");
                        ("data", PDict [("url", PStr "https://example.org/i.png")])]])].

(** What [classify_resource] computes on a well-formed resource: only
    the first map-kind document is consulted. *)
Definition classify_first_map (resource : value) : string :=
  match first_map_document resource with
  | Some doc =>
      if map_has_image doc || has_image_property resource
      then "Scene" else "JournalEntry"
  | None => "JournalEntry"
  end.

(** The key under which [main] stores a resource:
    [resource.get('id', '')], hashed. *)
Definition source_key (resource : value) : result key :=
  let* legendkeeper_id := py_get resource "id" (PStr "") in
  py_hash legendkeeper_id.

(** The entries the identifier pass inserts, in order, for resources
    whose keys are [keys], starting with the generator at [pos]. *)
Fixpoint table_entries (tape : nat -> nat) (pos : nat) (keys : list key)
    (resources : list value) : list (key * mapping) :=
  match keys, resources with
  | k :: keys', r :: resources' =>
      (k, {| id := fst (generate_id tape id_length pos);
             type := classify_first_map r |})
      :: table_entries tape (pos + id_length) keys' resources'
  | _, _ => []
  end.

(** The identifier generated at turn [i] of a loop that starts with the
    generator at [pos] and generates one identifier per turn. *)
Definition nth_id (tape : nat -> nat) (pos i : nat) : string :=
  fst (generate_id tape id_length (pos + id_length * i)).

(** The banner image that [create_journal_entry] puts in front of the
    first page: empty unless the banner url is a key of [image_map]. *)
Definition banner_image (image_map : gmap string string) (resource : value)
  : string :=
  match field "url" (PStr "") (field "banner" (PDict []) resource) with
  | PStr u =>
      if String.eqb u "" then ""
      else match image_map !! u with
           | Some path =>
               "<img src=" +:+ dq +:+ path +:+ dq +:+ " alt=" +:+ dq
               +:+ py_str (field "name" (PStr "Untitled") resource)
               +:+ dq +:+ " />"
           | None => ""
           end
  | _ => ""
  end.

(** A generator that always draws the first character. *)
Definition constant_tape : nat -> nat := fun _ => O.

(** A generator whose draw number [n] is [n]. *)
Definition counting_tape : nat -> nat := fun n => n.

Definition two_resources : list value :=
  [PDict [("id", PStr "a"); ("name", PStr "A")];
   PDict [("id", PStr "b"); ("name", PStr "B")]].

(** Two resources without [id]: both are stored under the key [""]. *)
Definition unnamed_resources : list value :=
  [PDict [("name", PStr "A")]; PDict [("name", PStr "B")]].

(** No page document, and a banner that is in the asset table. *)
Definition banner_resource : value :=
  PDict [("id", PStr "r4"); ("name", PStr "Keep");
         ("documents", PList [PDict [("type", PStr "map")]]);
         ("banner", PDict [("url", PStr asset_a)])].

Definition banner_table : gmap string string :=
  {[ asset_a := "modules/tennisfel/assets/banners/a.png" ]}.

(** A resource whose page mentions the resource [r1]. *)
Definition mention_page_resource : value :=
  PDict [("id", PStr "r5");
         ("documents",
          PList [PDict [("type", PStr "page");
                        ("content",
                         PDict [("type", PStr "doc");
                                ("content", PList [mention_node])])]])].

Definition sample_id_table : gmap key mapping :=
  {[ KStr "r1" := {| id := "X"; type := "JournalEntry" |} ]}.

(** [resource_id_map[k] = m] for an entry [(k, m)]. *)
Definition insert_entry (tbl : gmap key mapping) (e : key * mapping)
  : gmap key mapping := <[ e.1 := e.2 ]> tbl.

(** ** Downloading an asset *)

(** [s.split('/')[-1]]: what follows the last slash, the whole string
    when it has none. *)
Fixpoint last_segment (s : string) : string :=
  match s with
  | EmptyString => ""
  | String c s' =>
      if str_contains "/" s' then last_segment s'
      else if Ascii.eqb c "/" then s'
      else s
  end.

Fixpoint ends_with_slash (s : string) : bool :=
  match s with
  | EmptyString => false
  | String c EmptyString => Ascii.eqb c "/"
  | String _ s' => ends_with_slash s'
  end.

(** [os.path.join(a, b)] on a POSIX system. *)
Definition path_join (a b : string) : string :=
  if String.prefix "/" b then b
  else if String.eqb a "" || ends_with_slash a then a +:+ b
  else a +:+ "/" +:+ b.

Section download.
(** The outside world of one call: whether a path exists on disk, and
    whether fetching a url into a path succeeds (raises nothing).
    [os.makedirs] is taken to succeed. *)
Variable path_exists : string -> bool.
Variable urlretrieve : string -> string -> bool.

Definition download_image (url : string) (category : string)
  : option string :=
  if negb (py_truthy (PStr url)) || negb (String.prefix "http" url) then None
  else if negb (str_contains asset_host url) then None
  else
    let filename := last_segment url in
    let local_dir := "assets/" +:+ category in
    let local_path := path_join local_dir filename in
    if negb (path_exists local_path) && negb (urlretrieve url local_path)
    then None
    else Some ("modules/tennisfel/" +:+ local_path).
End download.

(** ** The scene builder *)

Record scene : Type := {
  scene_id : string;                  (* "_id" *)
  scene_name : value;                 (* "name" *)
  scene_background : option string;   (* background.src, [None] is null *)
  scene_legendkeeper_id : value;
  scene_tags : value
}.

(** The loop that finds the map document; it stops at the first one. *)
Fixpoint find_map_doc (docs : list value) : result (option value) :=
  match docs with
  | [] => Ok None
  | doc :: rest =>
      let* ty := py_get doc "type" PNone in
      if py_eq_str ty "map" then Ok (Some doc)      (* break *)
      else find_map_doc rest
  end.

(** The fallback loop over [properties] of the scene builder. *)
Fixpoint fallback_background (image_map : gmap string string)
    (props : list value) (background_src : option string)
  : result (option string) :=
  match props with
  | [] => Ok background_src
  | prop :: rest =>
      let* ty := py_get prop "type" PNone in
      if py_eq_str ty "IMAGE" then
        let* data := py_get prop "data" (PDict []) in
        let* url := py_get data "url" (PStr "") in
        let* local :=
          if py_truthy url then image_map_lookup image_map url
          else Ok None in
        match local with
        | Some path => Ok (Some path)        (* break *)
        | None => fallback_background image_map rest background_src
        end
      else fallback_background image_map rest background_src
  end.

(** [bool(background_src)]: [None] and [''] are falsy. *)
Definition background_truthy (background_src : option string) : bool :=
  match background_src with
  | Some path => py_truthy (PStr path)
  | None => false
  end.

Definition create_scene_entry (tape : nat -> nat) (resource : value)
    (image_map : gmap string string) (pos : nat) : result (scene * nat) :=
  let '(scene_id, pos) := generate_id tape id_length pos in
  let* name := py_get resource "name" (PStr "Untitled Scene") in
  let* documents := py_get resource "documents" (PList []) in
  let* docs := py_iter documents in
  let* map_doc := find_map_doc docs in
  let* background_src :=
    match map_doc with
    | Some doc =>
        if py_truthy doc then
          let* map_data := py_get doc "map" (PDict []) in
          let* map_url := py_get map_data "mapId" (PStr "") in
          if py_truthy map_url then image_map_lookup image_map map_url
          else Ok None
        else Ok None
    | None => Ok None
    end in
  let* background_src :=
    if negb (background_truthy background_src) then
      let* properties := py_get resource "properties" (PList []) in
      let* props := py_iter properties in
      fallback_background image_map props background_src
    else Ok background_src in
  let* legendkeeper_id := py_get resource "id" (PStr "") in
  let* tags := py_get resource "tags" (PList []) in
  Ok ({| scene_id := scene_id; scene_name := name;
         scene_background := background_src;
         scene_legendkeeper_id := legendkeeper_id;
         scene_tags := tags |}, pos).

(** ** The two passes of [main] over the resources *)

(** A value of [resource_foundry_ids]. *)
Record resolved : Type := {
  r_foundry_id : string;      (* 'foundry_id' *)
  r_resource : value;         (* 'resource' *)
  r_doc_type : string         (* 'doc_type' *)
}.

(** [d[k] = v] on a dict kept in insertion order: a key that is present
    keeps its place. *)
Fixpoint odict_set {V : Type} (k : key) (v : V) (d : list (key * V))
  : list (key * V) :=
  match d with
  | [] => [(k, v)]
  | (k', v') :: d' =>
      if decide (k' = k) then (k, v) :: d'
      else (k', v') :: odict_set k v d'
  end.

(** One turn of the first pass, with both dicts. *)
Definition id_map_step (tape : nat -> nat)
    (st : gmap key mapping * list (key * resolved) * nat) (resource : value)
  : result (gmap key mapping * list (key * resolved) * nat) :=
  let '(resource_id_map, resource_foundry_ids, pos) := st in
  let* legendkeeper_id := py_get resource "id" (PStr "") in
  let '(foundry_id, pos) := generate_id tape id_length pos in
  let* doc_type := classify_resource resource in
  let* k := py_hash legendkeeper_id in
  Ok (<[ k := {| id := foundry_id; type := doc_type |} ]> resource_id_map,
      odict_set k {| r_foundry_id := foundry_id; r_resource := resource;
                     r_doc_type := doc_type |} resource_foundry_ids,
      pos).

(** One turn of the second pass: the builder of the pre-computed kind,
    then [entry['_id'] = foundry_id]. *)
Definition convert_step (tape : nat -> nat) (image_map : gmap string string)
    (resource_id_map : gmap key mapping)
    (st : list journal_entry * list scene * nat) (item : key * resolved)
  : result (list journal_entry * list scene * nat) :=
  let '(journal_entries, scenes, pos) := st in
  let data := snd item in
  let resource := r_resource data in
  let foundry_id := r_foundry_id data in
  let doc_type := r_doc_type data in
  let* name := py_get resource "name" (PStr "Untitled") in
  if String.eqb doc_type "JournalEntry" then
    let* '(entry, pos) :=
      create_journal_entry tape image_map (Some resource_id_map) resource pos in
    let entry := {| entry_id := foundry_id; entry_name := entry_name entry;
                    entry_pages := entry_pages entry;
                    entry_legendkeeper_id := entry_legendkeeper_id entry;
                    entry_tags := entry_tags entry |} in
    Ok (app journal_entries [entry], scenes, pos)
  else if String.eqb doc_type "Scene" then
    let* '(entry, pos) := create_scene_entry tape resource image_map pos in
    let entry := {| scene_id := foundry_id; scene_name := scene_name entry;
                    scene_background := scene_background entry;
                    scene_legendkeeper_id := scene_legendkeeper_id entry;
                    scene_tags := scene_tags entry |} in
    Ok (journal_entries, app scenes [entry], pos)
  else Ok (journal_entries, scenes, pos).

(** Steps 5 and 6 of [main]: the identifier pass over all resources,
    then the conversion of each entry of [resource_foundry_ids].  The
    result is the table and the two lists handed to [write_db_file]. *)
Definition convert_resources (tape : nat -> nat)
    (image_map : gmap string string) (resources : list value) (pos : nat)
  : result (gmap key mapping * list journal_entry * list scene) :=
  let* '(resource_id_map, resource_foundry_ids, pos) :=
    foldM (id_map_step tape) resources (∅, [], pos) in
  let* '(journal_entries, scenes, _) :=
    foldM (convert_step tape image_map resource_id_map) resource_foundry_ids
          ([], [], pos) in
  Ok (resource_id_map, journal_entries, scenes).

(** ** Further definitions used to state properties *)

(** The HTML tag of a mark type, if the transducer knows it. *)
Definition mark_tag (mark_type : value) : option string :=
  if py_eq_str mark_type "strong" then Some "strong"
  else if py_eq_str mark_type "em" then Some "em"
  else if py_eq_str mark_type "code" then Some "code"
  else if py_eq_str mark_type "underline" then Some "u"
  else if py_eq_str mark_type "strike" then Some "s"
  else None.

(** [html] wrapped in the tag of [mark]; unchanged for an unknown mark. *)
Definition wrap_mark (html : string) (mark : value) : string :=
  match mark_tag (field "type" (PStr "") mark) with
  | Some tag => "<" +:+ tag +:+ ">" +:+ html +:+ "</" +:+ tag +:+ ">"
  | None => html
  end.

(** The type tags with a branch of their own in [process_node]. *)
Definition known_types : list string :=
  ["doc"; "heading"; "paragraph"; "text"; "bulletList"; "orderedList";
   "listItem"; "image"; "rule"; "codeBlock"; "blockquote";
   "bodiedExtension"; "panel"; "layoutSection"; "layoutColumn"; "mention";
   "inlineExtension"].

(** A [doc] node with the given children. *)
Definition doc_of (children : list value) : value :=
  PDict [("type", PStr "doc"); ("content", PList children)].

(** The items of [content], when it is a list, satisfy [ok]. *)
Fixpoint content_forall (ok : value -> bool) (d : list (string * value))
  : bool :=
  match d with
  | [] => true
  | (k, v) :: d' =>
      if String.eqb k "content" then
        match v with
        | PList l => forallb ok l
        | _ => true
        end
      else content_forall ok d'
  end.

(** No dict node reached through [content] lists is an image or a
    mention. *)
Fixpoint table_free (node : value) : bool :=
  match node with
  | PDict d =>
      negb (py_eq_str (default (PStr "") (dict_get "type" d)) "image")
      && negb (py_eq_str (default (PStr "") (dict_get "type" d)) "mention")
      && content_forall table_free d
  | PNone | PBool _ | PInt _ | PStr _ | PList _ => true
  end.

Definition marked_text_node : value :=
  PDict [("type", PStr "text"); ("text", PStr "a<b");
         ("marks", PList [PDict [("type", PStr "strong")];
                          PDict [("type", PStr "link")];
                          PDict [("type", PStr "em")]])].

Definition custom_block_node : value :=
  PDict [("type", PStr "customBlock");
         ("attrs", PInt 7);
         ("content", PList [PDict [("type", PStr "text"); ("text", PStr "z")];
                            PStr "stray";
                            PDict [("type", PStr "rule")]])].

(** A page, no map, and a [properties] that is not even a list. *)
Definition portrait_resource : value :=
  PDict [("id", PStr "r6");
         ("documents", PList [PDict [("type", PStr "page")]]);
         ("properties", PInt 5)].

(** A page, then a map document with an image; [properties] is not a
    list. *)
Definition map_scene_resource : value :=
  PDict [("id", PStr "r7");
         ("documents",
          PList [PDict [("type", PStr "page")];
                 PDict [("type", PStr "map");
                        ("map", PDict [("mapId", PStr map_url)])]]);
         ("properties", PStr "none")].

Definition map_table : gmap string string :=
  {[ map_url := "modules/tennisfel/assets/maps/m.webp" ]}.

(** Two pages with a map document between them. *)
Definition two_page_resource : value :=
  PDict [("id", PStr "r8");
         ("documents",
          PList [PDict [("type", PStr "page");
                        ("content", doc_of [marked_text_node])];
                 PDict [("type", PStr "map")];
                 PDict [("type", PStr "page"); ("name", PStr "History");
                        ("content", doc_of [custom_block_node])]])].

(** The entry of [resource_id_map] that goes with a value of
    [resource_foundry_ids]. *)
Definition mapping_of (data : resolved) : mapping :=
  {| id := r_foundry_id data; type := r_doc_type data |}.

Definition is_journal (item : key * resolved) : bool :=
  String.eqb (r_doc_type (snd item)) "JournalEntry".

Definition is_scene (item : key * resolved) : bool :=
  negb (String.eqb (r_doc_type (snd item)) "JournalEntry")
  && String.eqb (r_doc_type (snd item)) "Scene".

(** Three resources; the first and the last share the identifier [a],
    and the first mentions the second, which comes after it. *)
Definition linked_resources : list value :=
  [PDict [("id", PStr "a"); ("name", PStr "Old A")];
   PDict [("id", PStr "r1"); ("name", PStr "Bob")];
   PDict [("id", PStr "m"); ("name", PStr "Map");
          ("documents",
           PList [PDict [("type", PStr "map");
                         ("map", PDict [("mapId", PStr map_url)])]])];
   PDict [("id", PStr "a"); ("name", PStr "New A");
          ("documents",
           PList [PDict [("type", PStr "page");
                         ("content", doc_of [mention_node])]])]].

(** The table that goes with [resource_foundry_ids]. *)
Definition table_of (fids : list (key * resolved)) : gmap key mapping :=
  list_to_map ((fun kd => (fst kd, mapping_of (snd kd))) <$> fids).

(** What the first pass records for a resource of the input. *)
Definition recorded (resources : list value) (kd : key * resolved) : Prop :=
  (r_doc_type (snd kd) = "JournalEntry" \/ r_doc_type (snd kd) = "Scene") /\
  source_key (r_resource (snd kd)) = Ok (fst kd) /\
  r_resource (snd kd) ∈ resources.

(** The journal entry [e] is what the second pass makes of the item
    [kd]: the builder's entry for the recorded resource, rendered with
    the table [tbl], with the pre-assigned identifier. *)
Definition journal_of (tape : nat -> nat) (image_map : gmap string string)
    (tbl : gmap key mapping) (e : journal_entry) (kd : key * resolved)
  : Prop :=
  entry_id e = r_foundry_id (snd kd) /\
  exists e0 q q',
    create_journal_entry tape image_map (Some tbl) (r_resource (snd kd)) q
      = Ok (e0, q') /\
    entry_name e = entry_name e0 /\
    entry_pages e = entry_pages e0 /\
    entry_legendkeeper_id e = entry_legendkeeper_id e0 /\
    entry_tags e = entry_tags e0.

Definition scene_of (tape : nat -> nat) (image_map : gmap string string)
    (s : scene) (kd : key * resolved) : Prop :=
  scene_id s = r_foundry_id (snd kd) /\
  exists s0 q q',
    create_scene_entry tape (r_resource (snd kd)) image_map q = Ok (s0, q') /\
    scene_name s = scene_name s0 /\
    scene_background s = scene_background s0 /\
    scene_legendkeeper_id s = scene_legendkeeper_id s0 /\
    scene_tags s = scene_tags s0.

(** The first resource mentions the second, which comes after it. *)
Definition forward_resources : list value :=
  [PDict [("id", PStr "r0"); ("name", PStr "Alice");
          ("documents",
           PList [PDict [("type", PStr "page");
                         ("content", doc_of [mention_node])]])];
   PDict [("id", PStr "r1"); ("name", PStr "Bob")]].

(** * Properties *)

(** ** Helper lemmas *)

Lemma bind_Ok {A B} (c : result A) (k : A -> result B) b :
  bind c k = Ok b <-> exists a, c = Ok a /\ k a = Ok b.
Proof.
  split.
  - destruct c as [a|e]; simpl; [eauto | discriminate].
  - intros (a & -> & Hk). exact Hk.
Qed.

Lemma length_append (s1 s2 : string) :
  String.length (s1 +:+ s2) = (String.length s1 + String.length s2)%nat.
Proof. induction s1 as [|c s1 IH]; simpl; [reflexivity | now rewrite IH]. Qed.

Lemma py_join_strs (l : list string) :
  py_join (map PStr l) = Ok (concat_all l).
Proof.
  induction l as [|s l IH]; simpl; [reflexivity | now rewrite IH].
Qed.

Lemma mapM_non_dict (f : value -> result value) (l : list value) :
  Forall (fun v => f v = Ok (PStr "")) l ->
  mapM f l = Ok (map (fun _ => PStr "") l).
Proof.
  induction 1 as [|v l Hv _ IH]; simpl; [reflexivity|].
  now rewrite Hv, IH.
Qed.

(** [map_content] is the comprehension over [node.get('content', [])]. *)
Lemma map_content_iter image_map tbl (d : list (string * value)) :
  map_content (process_node image_map tbl) d =
  let* items := py_iter (default (PList []) (dict_get "content" d)) in
  mapM (process_node image_map tbl) items.
Proof.
  induction d as [|[k v] d IH]; simpl; [reflexivity|].
  destruct (String.eqb k "content"); [|exact IH].
  destruct v as [| | |s|l|kv]; simpl; try reflexivity.
  - symmetry. rewrite (mapM_non_dict _ (str_chars s)).
    + reflexivity.
    + induction s; simpl; constructor; auto.
  - symmetry. rewrite mapM_non_dict.
    + now rewrite map_map.
    + apply Forall_forall. intros x Hx. apply list_elem_of_fmap in Hx.
      destruct Hx as (? & -> & _). reflexivity.
Qed.

Lemma map_content_list f (d : list (string * value)) (children : list value) :
  default (PList []) (dict_get "content" d) = PList children ->
  map_content f d = mapM f children.
Proof.
  induction d as [|[k v] d IH]; simpl.
  - intros [= <-]. reflexivity.
  - destruct (String.eqb k "content"); [|exact IH].
    simpl. intros ->. reflexivity.
Qed.

Lemma convert_dict d image_map tbl :
  d <> [] ->
  convert_prosemirror_to_html (PDict d) image_map (Some tbl) =
  process_node image_map tbl (PDict d).
Proof. destruct d; [congruence | reflexivity]. Qed.

(** ** Scenarios *)

Example paragraph_strong :
  convert_prosemirror_to_html
    (PDict [("type", PStr "paragraph");
            ("content",
             PList [PDict [("type", PStr "text"); ("text", PStr "Hi");
                           ("marks", PList [PDict [("type", PStr "strong")]])]])])
    ∅ None
  = Ok (PStr "<p><strong>Hi</strong></p>").
Proof. reflexivity. Qed.

Example image_rewritten :
  convert_prosemirror_to_html
    (PDict [("type", PStr "image");
            ("attrs", PDict [("src", PStr "https://assets.legendkeeper.com/x.png");
                             ("alt", PStr "A")])])
    {[ "https://assets.legendkeeper.com/x.png"
         := "modules/tennisfel/assets/images/x.png" ]} None
  = Ok (PStr ("<img src=" +:+ dq +:+ "modules/tennisfel/assets/images/x.png"
              +:+ dq +:+ " alt=" +:+ dq +:+ "A" +:+ dq +:+ " />")).
Proof. reflexivity. Qed.

Example unknown_node :
  convert_prosemirror_to_html
    (PDict [("type", PStr "customBlock");
            ("content", PList [PDict [("type", PStr "text"); ("text", PStr "z")]])])
    ∅ None
  = Ok (PStr "z").
Proof. reflexivity. Qed.

Example map_resource_is_scene :
  classify_resource
    (PDict [("documents",
             PList [PDict [("type", PStr "map");
                           ("map", PDict [("mapId", PStr map_url)])]])])
  = Ok "Scene".
Proof. reflexivity. Qed.

Example heading_level_formats :
  process_node ∅ ∅
    (PDict [("type", PStr "heading");
            ("attrs", PDict [("level", PInt 3)]);
            ("content", PList [PDict [("type", PStr "text"); ("text", PStr "T")]])])
  = Ok (PStr "<h3>T</h3>").
Proof. reflexivity. Qed.

(** ** Mentions (C1) *)

Lemma uuid_token_not_text (m : mapping) (text : string) :
  uuid_token m text <> text.
Proof.
  intros H. apply (f_equal String.length) in H. unfold uuid_token in H.
  repeat (rewrite length_append in H; simpl in H). lia.
Qed.

(** C1.  A mention node (its [attrs] a dict, its target identifier
    [rid] and its display text strings, [""] when missing) whose target
    identifier is a key of the Identifier Resolution Table renders to
    the cross-reference token [@UUID[kind.id]{text}] built from the
    entry's target kind and target identifier and the mention's display
    text, which is never the plain display text; a mention node whose
    target identifier is absent from the table renders to exactly its
    display text.  This holds for the node wherever it occurs
    ([process_node]) and as the argument of the entry point. *)
Theorem mention_cross_reference image_map (tbl : gmap key mapping)
    d attrs rid text :
  dict_get "type" d = Some (PStr "mention") ->
  default (PDict []) (dict_get "attrs" d) = PDict attrs ->
  default (PStr "") (dict_get "id" attrs) = PStr rid ->
  default (PStr "") (dict_get "text" attrs) = PStr text ->
  (forall m, tbl !! KStr rid = Some m ->
     process_node image_map tbl (PDict d) = Ok (PStr (uuid_token m text)) /\
     convert_prosemirror_to_html (PDict d) image_map (Some tbl)
       = Ok (PStr (uuid_token m text)) /\
     uuid_token m text <> text) /\
  (tbl !! KStr rid = None ->
     process_node image_map tbl (PDict d) = Ok (PStr text) /\
     convert_prosemirror_to_html (PDict d) image_map (Some tbl)
       = Ok (PStr text)).
Proof.
  intros Hty Hattrs Hid Htext.
  assert (Hd : d <> []) by (intros ->; discriminate).
  assert (Hnode : process_node image_map tbl (PDict d) =
                  match tbl !! KStr rid with
                  | Some m => Ok (PStr (uuid_token m text))
                  | None => Ok (PStr text)
                  end).
  { simpl. rewrite Hty, Hattrs. simpl. rewrite Hid, Htext. simpl.
    destruct (tbl !! KStr rid); reflexivity. }
  rewrite (convert_dict d image_map tbl Hd), Hnode.
  split.
  - intros m ->. auto using uuid_token_not_text.
  - intros ->. auto.
Qed.

Lemma mention_cross_reference_witness :
  process_node ∅ {[ KStr "r1" := {| id := "X"; type := "Scene" |} ]}
    mention_node = Ok (PStr "@UUID[Scene.X]{Bob}") /\
  process_node ∅ ∅ mention_node = Ok (PStr "Bob").
Proof.
  pose proof (mention_cross_reference ∅
                {[ KStr "r1" := {| id := "X"; type := "Scene" |} ]}
                [("type", PStr "mention");
                 ("attrs", PDict [("id", PStr "r1"); ("text", PStr "Bob")])]
                [("id", PStr "r1"); ("text", PStr "Bob")] "r1" "Bob"
                eq_refl eq_refl eq_refl eq_refl) as [Hin _].
  pose proof (mention_cross_reference ∅ ∅
                [("type", PStr "mention");
                 ("attrs", PDict [("id", PStr "r1"); ("text", PStr "Bob")])]
                [("id", PStr "r1"); ("text", PStr "Bob")] "r1" "Bob"
                eq_refl eq_refl eq_refl eq_refl) as [_ Hout].
  split.
  - exact (proj1 (Hin {| id := "X"; type := "Scene" |} eq_refl)).
  - exact (proj1 (Hout eq_refl)).
Defined.

(** ** Secret blocks (C5) *)

(** C5, the claim as stated fails: a bodiedExtension with one text
    child ["x"] and no title renders with a space after [</strong>],
    not to the string of the specification. *)
Lemma secret_no_space_counterexample :
  process_node ∅ ∅ secret_node
    = Ok (PStr ("<div class=" +:+ dq +:+ "secret" +:+ dq
                +:+ "><strong>Secret:</strong> x</div>")) /\
  process_node ∅ ∅ secret_node <> Ok (PStr (secret_div_spec "Secret" "x")).
Proof. split; [reflexivity | discriminate]. Qed.

(** C5 as amended.  A bodiedExtension node whose [attrs] and
    [parameters] are dicts (or missing) and whose children render to the
    strings [htmls] renders to
    [<div class="secret"><strong>{title}:</strong> {children}</div>]:
    the title is the [extensionTitle] of [parameters], ["Secret"] when
    missing, and exactly one space stands between [</strong>] and the
    concatenation of the rendered children. *)
Theorem bodied_extension_renders image_map (tbl : gmap key mapping)
    d attrs params children htmls :
  dict_get "type" d = Some (PStr "bodiedExtension") ->
  default (PDict []) (dict_get "attrs" d) = PDict attrs ->
  default (PDict []) (dict_get "parameters" attrs) = PDict params ->
  default (PList []) (dict_get "content" d) = PList children ->
  mapM (process_node image_map tbl) children = Ok (map PStr htmls) ->
  process_node image_map tbl (PDict d) =
    Ok (PStr ("<div class=" +:+ dq +:+ "secret" +:+ dq +:+ "><strong>"
              +:+ py_str (default (PStr "Secret")
                            (dict_get "extensionTitle" params))
              +:+ ":</strong> " +:+ concat_all htmls +:+ "</div>")).
Proof.
  intros Hty Hattrs Hparams Hcontent Hchildren.
  simpl. rewrite Hty, Hattrs. simpl. rewrite Hparams. simpl.
  rewrite (map_content_list _ d children Hcontent), Hchildren. simpl.
  rewrite py_join_strs. reflexivity.
Qed.

Lemma bodied_extension_renders_witness :
  process_node ∅ ∅ titled_secret_node
  = Ok (PStr ("<div class=" +:+ dq +:+ "secret" +:+ dq
              +:+ "><strong>GM:</strong> ab</div>")).
Proof.
  exact (bodied_extension_renders ∅ ∅
           [("type", PStr "bodiedExtension");
            ("attrs", PDict [("parameters",
                              PDict [("extensionTitle", PStr "GM")])]);
            ("content", PList [PDict [("type", PStr "text"); ("text", PStr "a")];
                               PDict [("type", PStr "text"); ("text", PStr "b")]])]
           [("parameters", PDict [("extensionTitle", PStr "GM")])]
           [("extensionTitle", PStr "GM")]
           [PDict [("type", PStr "text"); ("text", PStr "a")];
            PDict [("type", PStr "text"); ("text", PStr "b")]]
           ["a"; "b"] eq_refl eq_refl eq_refl eq_refl eq_refl).
Defined.

(** ** The entry point on other inputs (C10) *)

(** C10.  When the top-level input is not a dict (None, a bool, a
    number, a string, a list) or is the empty dict, the entry point
    returns the empty string: it neither raises nor returns None. *)
Theorem convert_non_dict_empty content image_map resource_id_map :
  is_dict content = false \/ content = PDict [] ->
  convert_prosemirror_to_html content image_map resource_id_map
    = Ok (PStr "").
Proof.
  intros [H | ->]; [|reflexivity].
  unfold convert_prosemirror_to_html. rewrite H.
  now rewrite orb_true_r.
Qed.

Lemma convert_non_dict_empty_witness :
  convert_prosemirror_to_html PNone ∅ None = Ok (PStr "") /\
  convert_prosemirror_to_html (PDict []) ∅ None = Ok (PStr "") /\
  convert_prosemirror_to_html (PList [mention_node]) ∅ None = Ok (PStr "") /\
  convert_prosemirror_to_html (PStr "<p>x</p>") ∅ None = Ok (PStr "").
Proof.
  split; [|split; [|split]].
  - apply convert_non_dict_empty. left. reflexivity.
  - apply convert_non_dict_empty. right. reflexivity.
  - apply convert_non_dict_empty. left. reflexivity.
  - apply convert_non_dict_empty. left. reflexivity.
Defined.

(** ** Totality of the transducer (C6) *)

Lemma value_ind_deep (P : value -> Prop) :
  (forall v, is_dict v = false -> P v) ->
  (forall d, (forall k l, (k, PList l) ∈ d -> Forall P l) -> P (PDict d)) ->
  forall v, P v.
Proof.
  intros Hleaf Hdict v.
  enough (P v /\ forall l, v = PList l -> Forall P l) by tauto.
  induction v as [| | | |l IH|d IH] using value_ind;
    try (split; [now apply Hleaf | discriminate]).
  - split; [now apply Hleaf|]. intros l' [= <-].
    eapply Forall_impl; [exact IH|]. simpl. tauto.
  - split; [|discriminate]. apply Hdict. intros k l Hin.
    rewrite Forall_forall in IH. apply (IH _ Hin). reflexivity.
Qed.














(** ** The asset locator (C3, C9) *)

Lemma elem_of_add_asset k (d : list (string * value)) (urls : gset string) s :
  s ∈ add_asset k d urls <->
  s ∈ urls \/ (dict_get k d = Some (PStr s) /\ str_contains asset_host s = true).
Proof.
  unfold add_asset.
  destruct (dict_get k d) as [[| | |s'| |]|];
    try (split; [auto | intros [?|[? ?]]; [assumption|discriminate]]).
  destruct (str_contains asset_host s') eqn:Hc.
  - rewrite elem_of_union, elem_of_singleton. split.
    + intros [->|?]; auto.
    + intros [?|[[= ->] _]]; auto.
  - split; [auto|]. intros [?|[[= ->] ?]]; [assumption|congruence].
Qed.

Lemma elem_of_fold_extract {A} (f : A -> value) (l : list A) s :
  Forall (fun x => forall urls : gset string,
            s ∈ extract_urls (f x) urls <->
            s ∈ urls \/ (occurs_under s (f x) /\ str_contains asset_host s = true)) l ->
  forall urls : gset string,
    s ∈ fold_left (fun urls x => extract_urls (f x) urls) l urls <->
    s ∈ urls \/
    ((exists x, x ∈ l /\ occurs_under s (f x)) /\
     str_contains asset_host s = true).
Proof.
  induction 1 as [|x l Hx _ IH]; simpl; intros urls.
  - split; [auto|]. intros [?|[(x & Hx & _) _]]; [assumption|]. inversion Hx.
  - rewrite IH, Hx. split.
    + intros [[?|[Ho Hc]]|[(y & Hy & Ho) Hc]]; auto.
      * right. split; [|exact Hc]. exists x. split; [left|exact Ho].
      * right. split; [|exact Hc]. exists y. split; [now right|exact Ho].
    + intros [?|[(y & Hy & Ho) Hc]]; auto.
      apply elem_of_cons in Hy as [->|Hy]; [left; right; auto|].
      right. split; [|exact Hc]. eauto.
Qed.

Lemma elem_of_extract_urls (obj : value) s : forall urls : gset string,
  s ∈ extract_urls obj urls <->
  s ∈ urls \/ (occurs_under s obj /\ str_contains asset_host s = true).
Proof.
  induction obj as [| | | |l IH|d IH] using value_ind; intros urls;
    try (simpl; split; [auto | intros [?|[Ho _]]; [assumption | inversion Ho]]).
  - simpl. rewrite (elem_of_fold_extract (fun x => x) l s IH). split.
    + intros [?|[(x & Hx & Ho) Hc]]; auto. right. split; [|exact Hc].
      eapply occurs_in_list; eauto.
    + intros [?|[Ho Hc]]; auto. right. split; [|exact Hc].
      inversion Ho; subst. eauto.
  - simpl. rewrite (elem_of_fold_extract snd d s IH), !elem_of_add_asset. split.
    + intros [[[?|[Hg Hc]]|[Hg Hc]]|[(x & Hx & Ho) Hc]]; auto.
      * right. split; [|exact Hc]. apply (occurs_here s d "url"); auto.
      * right. split; [|exact Hc]. apply (occurs_here s d "mapId"); auto.
      * right. split; [|exact Hc]. destruct x as [k v].
        eapply occurs_in_dict; eauto.
    + intros [?|[Ho Hc]]; auto. inversion Ho as [d0 k [->| ->] Hg|d0 k v Hin Hv|]; subst.
      * left. left. right. auto.
      * left. right. auto.
      * right. split; [|exact Hc]. exists (k, v). auto.
Qed.

Lemma extract_urls_union (obj : value) (urls : gset string) :
  extract_urls obj urls = urls ∪ extract_urls obj ∅.
Proof.
  apply set_eq. intros s.
  rewrite elem_of_union, !elem_of_extract_urls.
  pose proof (not_elem_of_empty (C:=gset string) s). tauto.
Qed.

Lemma permuted_shape v v' :
  lists_permuted v v' ->
  match v, v' with
  | PList _, PList _ => True
  | PDict _, PDict _ => True
  | PList _, _ | PDict _, _ | _, PList _ | _, PDict _ => False
  | _, _ => v = v'
  end.
Proof.
  induction 1 as [v|v1 v2 v3 _ IH1 _ IH2| | |]; try exact I.
  - destruct v; auto.
  - destruct v1, v2; try contradiction; subst; try exact IH2; try discriminate;
      destruct v3; try contradiction; auto; try congruence.
Qed.

(** Reordering lists keeps the string stored under a key. *)
Lemma permuted_str_field k v v' :
  lists_permuted v v' ->
  forall d d', v = PDict d -> v' = PDict d' ->
  forall s, dict_get k d = Some (PStr s) <-> dict_get k d' = Some (PStr s).
Proof.
  induction 1 as [v|v1 v2 v3 H1 IH1 H2 IH2| | |k0 v v' d0 d0' Hv _ Hd IHd];
    intros d d' E E' s.
  - subst. injection E' as <-. reflexivity.
  - subst. pose proof (permuted_shape _ _ H1) as Hs. simpl in Hs.
    destruct v2; try contradiction.
    rewrite (IH1 _ _ eq_refl eq_refl), (IH2 _ _ eq_refl eq_refl). reflexivity.
  - discriminate.
  - discriminate.
  - injection E as <-. injection E' as <-. simpl.
    destruct (String.eqb k0 k).
    + pose proof (permuted_shape _ _ Hv) as Hs.
      destruct v, v'; try contradiction; try discriminate; split; congruence.
    + apply (IHd _ _ eq_refl eq_refl).
Qed.

Lemma add_asset_permuted k d d' (urls : gset string) :
  lists_permuted (PDict d) (PDict d') ->
  add_asset k d urls = add_asset k d' urls.
Proof.
  intros H. apply set_eq. intros s. rewrite !elem_of_add_asset.
  now rewrite (permuted_str_field k _ _ H d d' eq_refl eq_refl s).
Qed.

Lemma fold_extract_union (l : list value) (urls : gset string) :
  fold_left (fun urls item => extract_urls item urls) l urls =
  urls ∪ ⋃ (map (fun item => extract_urls item ∅) l).
Proof.
  revert urls. induction l as [|x l IH]; simpl; intros urls.
  - now rewrite (right_id_L ∅ (∪)).
  - rewrite IH, (extract_urls_union x urls). now rewrite (assoc_L (∪)).
Qed.

Lemma extract_urls_permuted_values v v' :
  lists_permuted v v' ->
  (forall urls : gset string, extract_urls v urls = extract_urls v' urls) /\
  (forall d d', v = PDict d -> v' = PDict d' ->
   forall urls : gset string,
     fold_left (fun urls kv => extract_urls (snd kv) urls) d urls =
     fold_left (fun urls kv => extract_urls (snd kv) urls) d' urls).
Proof.
  induction 1 as [v|v1 v2 v3 H1 [IH1 IH1'] H2 [IH2 IH2']|l l' Hp
                 |v v' l l' _ [IHv _] _ [IHl _]
                 |k v v' d d' Hv [IHv _] Hd [IHd IHd']].
  - split; [reflexivity|]. intros d d' -> [= ->]. reflexivity.
  - split; [intros urls; now rewrite IH1|].
    intros d d' -> -> urls.
    pose proof (permuted_shape _ _ H1) as Hs. simpl in Hs.
    destruct v2; try contradiction.
    now rewrite (IH1' _ _ eq_refl eq_refl), (IH2' _ _ eq_refl eq_refl).
  - split; [|discriminate]. intros urls. simpl.
    rewrite !fold_extract_union. f_equal.
    clear urls. induction Hp as [|x l l' _ IH|x y l|l l' l'' _ IH1 _ IH2]; simpl.
    + reflexivity.
    + now rewrite IH.
    + rewrite !(assoc_L (∪)). f_equal. apply (comm_L (∪)).
    + now rewrite IH1.
  - split; [|discriminate]. intros urls. simpl.
    rewrite IHv. apply (IHl (extract_urls v' urls)).
  - assert (Hcons : lists_permuted (PDict ((k, v) :: d)) (PDict ((k, v') :: d')))
      by now constructor.
    assert (Hfold : forall urls : gset string,
      fold_left (fun urls kv => extract_urls (snd kv) urls) ((k, v) :: d) urls =
      fold_left (fun urls kv => extract_urls (snd kv) urls) ((k, v') :: d') urls).
    { intros urls. simpl. rewrite IHv. apply (IHd' _ _ eq_refl eq_refl). }
    split.
    + intros urls. cbn [extract_urls].
      rewrite (add_asset_permuted "url" _ _ urls Hcons).
      rewrite (add_asset_permuted "mapId" _ _ _ Hcons).
      apply Hfold.
    + intros d0 d0' [= <-] [= <-]. exact Hfold.
Qed.



Lemma sample_data_lists_permuted :
  lists_permuted sample_data sample_data_permuted.
Proof.
  apply permuted_binding; [|apply permuted_refl].
  eapply permuted_trans.
  - apply permuted_list. apply perm_swap.
  - apply permuted_item; [|apply permuted_refl].
    apply permuted_binding; [|apply permuted_refl].
    apply permuted_list. apply perm_swap.
Qed.

(** C9.  Reordering the lists nested inside the data graph, at any
    depth, does not change the set of URLs the locator returns. *)
Theorem locator_order_independent (data data' : value) :
  lists_permuted data data' ->
  collect_image_urls data = collect_image_urls data'.
Proof.
  intros H. apply (proj1 (extract_urls_permuted_values data data' H)).
Qed.

Lemma locator_order_independent_witness :
  lists_permuted sample_data sample_data_permuted /\
  collect_image_urls sample_data = collect_image_urls sample_data_permuted.
Proof.
  split; [exact sample_data_lists_permuted|].
  apply locator_order_independent. exact sample_data_lists_permuted.
Defined.

(** ** The classifier (C2) *)

Lemma truthy_and_startswith_ok (v : value) :
  url_field_ok v = true ->
  truthy_and_startswith v "http" = Ok (url_shaped v).
Proof.
  unfold url_field_ok, truthy_and_startswith.
  destruct v as [|b|z|s|l|d]; simpl.
  - reflexivity.
  - destruct b; [discriminate | reflexivity].
  - destruct (z =? 0); [reflexivity | discriminate].
  - intros _. destruct (String.eqb s ""); reflexivity.
  - destruct l; [reflexivity | discriminate].
  - destruct d; [reflexivity | discriminate].
Qed.

Lemma image_property_scan_ok (props : list value) :
  forallb well_formed_property props = true ->
  image_property_scan props = Ok (existsb image_property props).
Proof.
  induction props as [|prop props IH]; simpl; [reflexivity|].
  intros H. apply andb_prop in H as [Hprop Hprops].
  unfold well_formed_property in Hprop. apply andb_prop in Hprop as [Hd Hprop].
  destruct prop as [| | | | |p]; try discriminate.
  unfold image_property. unfold has_type in *. simpl in *.
  destruct (py_eq_str (default PNone (dict_get "type" p)) "IMAGE"); simpl; [|auto].
  destruct (default (PDict []) (dict_get "data" p)) as [| | | | |data];
    try discriminate.
  simpl. rewrite (truthy_and_startswith_ok _ Hprop). simpl.
  destruct (url_shaped _); simpl; auto.
Qed.

Lemma classify_documents_ok (d : list (string * value)) (docs : list value) :
  forallb well_formed_document docs = true ->
  (exists props, default (PList []) (dict_get "properties" d) = PList props /\
                 forallb well_formed_property props = true) ->
  classify_documents (PDict d) docs =
  Ok (match List.find (has_type "map") docs with
      | Some doc =>
          if map_has_image doc || has_image_property (PDict d)
          then "Scene" else "JournalEntry"
      | None => "JournalEntry"
      end).
Proof.
  intros Hdocs (props & Hprops & Hwf).
  induction docs as [|doc docs IH]; simpl; [reflexivity|].
  simpl in Hdocs. apply andb_prop in Hdocs as [Hdoc Hdocs].
  unfold well_formed_document in Hdoc. apply andb_prop in Hdoc as [Hd Hdoc].
  destruct doc as [| | | | |m]; try discriminate.
  unfold has_type, map_has_image in *. simpl in *.
  destruct (py_eq_str (default PNone (dict_get "type" m)) "map"); simpl; [|auto].
  destruct (default (PDict []) (dict_get "map" m)) as [| | | | |md];
    try discriminate.
  simpl. rewrite (truthy_and_startswith_ok _ Hdoc). simpl.
  destruct (url_shaped _); simpl; [reflexivity|].
  unfold has_image_property, properties_of, list_field.
  rewrite Hprops. simpl. rewrite (image_property_scan_ok _ Hwf). simpl.
  destruct (existsb image_property props); reflexivity.
Qed.

Lemma classify_resource_first_map (resource : value) :
  well_formed_resource resource = true ->
  classify_resource resource = Ok (classify_first_map resource).
Proof.
  destruct resource as [| | | | |d]; try discriminate. simpl.
  destruct (default (PList []) (dict_get "documents" d)) as [| | | |docs|] eqn:Hdocs;
    try discriminate.
  destruct (default (PList []) (dict_get "properties" d)) as [| | | |props|] eqn:Hprops;
    try discriminate.
  intros H. apply andb_prop in H as [Hd Hp].
  unfold classify_resource, classify_first_map, first_map_document, documents_of.
  simpl.
  rewrite Hdocs. simpl. apply classify_documents_ok; eauto.
Qed.

Lemma no_map_no_image (docs : list value) :
  List.filter (has_type "map") docs = [] ->
  existsb (fun doc => has_type "map" doc && map_has_image doc) docs = false /\
  existsb (has_type "map") docs = false.
Proof.
  induction docs as [|doc docs IH]; simpl; [auto|].
  destruct (has_type "map" doc); [discriminate | exact IH].
Qed.

(** With at most one map-kind document the code agrees with the rule
    of the specification. *)
Lemma classify_first_map_spec (resource : value) :
  (List.length (List.filter (has_type "map") (documents_of resource)) <= 1)%nat ->
  classify_first_map resource = classify_spec resource.
Proof.
  unfold classify_first_map, classify_spec, first_map_document.
  generalize (has_image_property resource) as p.
  induction (documents_of resource) as [|doc docs IH]; simpl; intros p Hlen.
  - now rewrite andb_false_r.
  - destruct (has_type "map" doc) eqn:Hmap; simpl in *.
    + destruct (List.filter (has_type "map") docs) eqn:Hf; [|simpl in Hlen; lia].
      destruct (no_map_no_image docs Hf) as [-> _].
      rewrite orb_false_r, andb_true_r.
      destruct (map_has_image doc), p; reflexivity.
    + apply IH. exact Hlen.
Qed.

(** C2, the claim as stated fails: when the first map-kind document has
    no image and a later one carries it, rule (1) of the specification
    gives Scene but the code returns JournalEntry. *)
Lemma classify_later_map_counterexample :
  classify_resource two_maps_resource = Ok "JournalEntry" /\
  existsb (fun doc => has_type "map" doc && map_has_image doc)
          (documents_of two_maps_resource) = true /\
  classify_spec two_maps_resource = "Scene".
Proof. split; [|split]; reflexivity. Qed.

(** C2 as amended.  For every well-formed resource the classifier
    returns Scene or JournalEntry, and it returns Scene exactly when the
    resource has a map-kind document and either the first map-kind
    document carries a non-empty [mapId] that starts with [http], or
    some IMAGE-typed property carries a non-empty [url] that starts
    with [http]; map-kind documents after the first are not consulted.
    When the resource has at most one map-kind document this is the
    rule of the specification. *)
Theorem classify_first_map_document (resource : value) :
  well_formed_resource resource = true ->
  (classify_resource resource = Ok "Scene" \/
   classify_resource resource = Ok "JournalEntry") /\
  (classify_resource resource = Ok "Scene" <->
   exists doc,
     first_map_document resource = Some doc /\
     (map_has_image doc = true \/ has_image_property resource = true)) /\
  ((List.length (List.filter (has_type "map") (documents_of resource)) <= 1)%nat ->
   classify_resource resource = Ok (classify_spec resource)).
Proof.
  intros Hwf. rewrite (classify_resource_first_map resource Hwf).
  split; [|split].
  - unfold classify_first_map. destruct (first_map_document resource); auto.
    destruct (_ || _); auto.
  - unfold classify_first_map.
    destruct (first_map_document resource) as [doc|].
    + destruct (map_has_image doc || has_image_property resource) eqn:H.
      * split; [|reflexivity]. intros _. exists doc. split; [reflexivity|].
        now apply orb_prop.
      * split; [discriminate|]. intros (doc' & [= <-] & [H'|H']);
          rewrite H' in H; [discriminate | now rewrite orb_true_r in H].
    + split; [discriminate|]. intros (doc & Hdoc & _). discriminate.
  - intros Hlen. f_equal. now apply classify_first_map_spec.
Qed.

Lemma classify_first_map_document_witness :
  well_formed_resource property_scene_resource = true /\
  classify_resource property_scene_resource = Ok "Scene".
Proof.
  split; [reflexivity|].
  destruct (classify_first_map_document property_scene_resource eq_refl)
    as (_ & Hscene & _).
  apply Hscene.
  exists (PDict [("type", PStr "map"); ("map", PDict [("mapId", PNone)])]).
  split; [reflexivity | right; reflexivity].
Defined.

(** ** The journal builder (C8) *)

Lemma journal_no_pages tape image_map resource_id_map (docs : list value) st :
  forallb is_dict docs = true ->
  existsb (has_type "page") docs = false ->
  foldM (journal_page_step tape image_map resource_id_map) docs st = Ok st.
Proof.
  induction docs as [|doc docs IH]; simpl; [reflexivity|].
  intros Hd Hp. apply andb_prop in Hd as [Hdoc Hd].
  apply orb_false_elim in Hp as [Hdocp Hp].
  destruct doc as [| | | | |d]; try discriminate.
  destruct st as [pages pos]. unfold has_type in Hdocp. simpl in *.
  rewrite Hdocp. simpl. now apply IH.
Qed.

Lemma journal_pages_nonempty tape image_map resource_id_map resource pos
    entry pos' :
  create_journal_entry tape image_map resource_id_map resource pos
    = Ok (entry, pos') ->
  entry_pages entry <> [].
Proof.
  unfold create_journal_entry.
  destruct (generate_id tape id_length pos) as [resource_id pos1].
  intros H.
  apply bind_Ok in H as (name & _ & H).
  apply bind_Ok in H as (documents & _ & H).
  apply bind_Ok in H as (docs & _ & H).
  apply bind_Ok in H as ([pages pos2] & _ & H).
  set (pp := match pages with [] => _ | _ :: _ => _ end) in H.
  assert (Hpp : fst pp <> []).
  { subst pp. destruct pages; [|discriminate].
    destruct (generate_id tape id_length pos2). discriminate. }
  destruct pp as [pages' pos3]. simpl in Hpp.
  apply bind_Ok in H as (banner & _ & H).
  apply bind_Ok in H as (banner_url & _ & H).
  apply bind_Ok in H as (local & _ & H).
  apply bind_Ok in H as (pages'' & Hpages & H).
  apply bind_Ok in H as (lid & _ & H).
  apply bind_Ok in H as (tags & _ & H).
  injection H as <- <-. simpl.
  destruct local as [path|].
  - destruct pages' as [|first rest]; [discriminate|].
    apply bind_Ok in Hpages as (content & _ & [= <-]). discriminate.
  - injection Hpages as <-. exact Hpp.
Qed.

(** C8, the claim as stated fails: for a resource without page
    documents whose banner url is in the asset table, the body of the
    single page is the banner image tag followed by the placeholder
    text, not the placeholder text alone. *)
Lemma journal_banner_counterexample :
  (let* '(entry, _) :=
     create_journal_entry counting_tape banner_table None banner_resource 0 in
   Ok (map page_content (entry_pages entry)))
  = Ok [PStr ("<img src=" +:+ dq +:+ "modules/tennisfel/assets/banners/a.png"
              +:+ dq +:+ " alt=" +:+ dq +:+ "Keep" +:+ dq +:+ " />"
              +:+ placeholder_content)] /\
  existsb (has_type "page") (documents_of banner_resource) = false /\
  (let* '(entry, _) :=
     create_journal_entry counting_tape banner_table None banner_resource 0 in
   Ok (map page_content (entry_pages entry)))
  <> Ok [PStr placeholder_content].
Proof. split; [|split]; [reflexivity | reflexivity | discriminate]. Qed.

(** C8 as amended.  For every resource without page-kind documents
    (its [documents] a list of dicts, its [banner] a dict with a
    hashable [url], each possibly missing) the journal builder returns
    an entry whose page list holds exactly one page, named ["Main"],
    whose body is the placeholder text [<p>No content</p>], preceded by
    the banner image tag when the banner url is a key of the asset
    table.  Whatever the resource, a returned entry never has an empty
    page list. *)
Theorem journal_placeholder_page tape image_map resource_id_map
    d docs banner pos :
  default (PList []) (dict_get "documents" d) = PList docs ->
  forallb is_dict docs = true ->
  existsb (has_type "page") docs = false ->
  default (PDict []) (dict_get "banner" d) = PDict banner ->
  is_hashable (default (PStr "") (dict_get "url" banner)) = true ->
  (exists entry pos' page_id,
     create_journal_entry tape image_map resource_id_map (PDict d) pos
       = Ok (entry, pos') /\
     entry_pages entry =
       [ {| page_id := page_id; page_name := PStr "Main";
            page_content :=
              PStr (banner_image image_map (PDict d) +:+ placeholder_content);
            page_sort := 0 |} ]) /\
  (forall resource pos0 entry pos',
     create_journal_entry tape image_map resource_id_map resource pos0
       = Ok (entry, pos') ->
     entry_pages entry <> []).
Proof.
  intros Hdocs Hdicts Hpages Hbanner Hurl.
  split; [|intros resource pos0 entry pos'; apply journal_pages_nonempty].
  unfold create_journal_entry, banner_image.
  destruct (generate_id tape id_length pos) as [resource_id pos1].
  simpl. rewrite Hdocs. simpl.
  rewrite (journal_no_pages _ _ _ docs _ Hdicts Hpages). simpl.
  destruct (generate_id tape id_length pos1) as [pid pos2].
  rewrite Hbanner. simpl.
  destruct (default (PStr "") (dict_get "url" banner)) as [|b|z|u| |];
    try discriminate; simpl.
  - eauto.
  - destruct b; simpl; eauto.
  - destruct (z =? 0); simpl; eauto.
  - destruct (String.eqb u ""); simpl; [eauto|].
    destruct (image_map !! u); simpl; eauto.
Qed.

Lemma journal_placeholder_page_witness :
  exists entry pos' page_id,
    create_journal_entry counting_tape banner_table None banner_resource 0
      = Ok (entry, pos') /\
    entry_pages entry =
      [ {| page_id := page_id; page_name := PStr "Main";
           page_content :=
             PStr (banner_image banner_table banner_resource
                   +:+ placeholder_content);
           page_sort := 0 |} ].
Proof.
  exact (proj1 (journal_placeholder_page counting_tape banner_table None
                  [("id", PStr "r4"); ("name", PStr "Keep");
                   ("documents", PList [PDict [("type", PStr "map")]]);
                   ("banner", PDict [("url", PStr asset_a)])]
                  [PDict [("type", PStr "map")]]
                  [("url", PStr asset_a)] 0
                  eq_refl eq_refl eq_refl eq_refl eq_refl)).
Defined.

(** ** The actor and item builders (C4) *)

(** C4, the code at the failing input.  The page of
    [mention_page_resource] mentions [r1], which is a key of the
    Identifier Resolution Table.  The journal builder, given the table,
    renders the mention as a cross-reference token; the actor and item
    builders have no parameter for the table, call the transducer
    without it, and produce the plain display text. *)
Theorem actor_item_mentions_plain :
  sample_id_table !! KStr "r1" = Some {| id := "X"; type := "JournalEntry" |} /\
  (let* '(entry, _) :=
     create_journal_entry counting_tape ∅ (Some sample_id_table)
       mention_page_resource 0 in
   Ok (map page_content (entry_pages entry)))
  = Ok [PStr "@UUID[JournalEntry.X]{Bob}"] /\
  (let* '(a, _) := create_actor_entry counting_tape mention_page_resource ∅ 0 in
   Ok (actor_biography a)) = Ok "Bob" /\
  (let* '(i, _) := create_item_entry counting_tape mention_page_resource ∅ 0 in
   Ok (item_description i)) = Ok "Bob".
Proof. split; [|split; [|split]]; reflexivity. Qed.

(** ** The identifier-resolution pass (C7) *)

Lemma random_chars_pos tape n pos : snd (random_chars tape n pos) = (pos + n)%nat.
Proof.
  revert pos. induction n as [|n IH]; intros pos; simpl.
  - lia.
  - specialize (IH (S pos)). destruct (random_chars tape n (S pos)). simpl in *. lia.
Qed.

Lemma generate_id_eq tape pos :
  generate_id tape id_length pos =
  (fst (generate_id tape id_length pos), (pos + id_length)%nat).
Proof.
  unfold generate_id. pose proof (random_chars_pos tape id_length pos).
  destruct (random_chars tape id_length pos). simpl in *. congruence.
Qed.

Lemma resolve_step_ok tape tbl pos (r : value) k :
  well_formed_resource r = true ->
  source_key r = Ok k ->
  resolve_step tape (tbl, pos) r =
  Ok (<[ k := {| id := fst (generate_id tape id_length pos);
                 type := classify_first_map r |} ]> tbl,
      (pos + id_length)%nat).
Proof.
  intros Hwf Hk. unfold resolve_step, source_key in *.
  apply bind_Ok in Hk as (lid & Hlid & Hk).
  rewrite Hlid, (generate_id_eq tape pos), (classify_resource_first_map r Hwf).
  cbn [bind]. rewrite Hk. reflexivity.
Qed.

Lemma mapM_length {A B} (f : A -> result B) l l' :
  mapM f l = Ok l' -> List.length l' = List.length l.
Proof.
  revert l'. induction l as [|x l IH]; simpl; intros l' H.
  - now injection H as <-.
  - apply bind_Ok in H as (y & _ & H). apply bind_Ok in H as (ys & Hys & H).
    injection H as <-. simpl. f_equal. auto.
Qed.

Lemma resolve_loop tape (resources : list value) : forall keys tbl pos,
  forallb well_formed_resource resources = true ->
  mapM source_key resources = Ok keys ->
  foldM (resolve_step tape) resources (tbl, pos) =
  Ok (foldl insert_entry tbl (table_entries tape pos keys resources),
      (pos + id_length * List.length resources)%nat).
Proof.
  induction resources as [|r rs IH]; intros keys tbl pos Hwf Hkeys;
    cbn [foldM forallb mapM] in *.
  - injection Hkeys as <-. simpl. f_equal. f_equal. unfold id_length. lia.
  - apply andb_prop in Hwf as [Hr Hrs].
    apply bind_Ok in Hkeys as (k & Hk & Hkeys).
    apply bind_Ok in Hkeys as (ks & Hks & Hkeys). injection Hkeys as <-.
    rewrite (resolve_step_ok tape tbl pos r k Hr Hk). cbn [bind].
    rewrite (IH ks _ _ Hrs Hks). cbn [table_entries foldl List.length].
    f_equal. f_equal. unfold id_length. lia.
Qed.

Lemma table_entries_keys tape : forall keys resources pos,
  List.length keys = List.length resources ->
  (table_entries tape pos keys resources).*1 = keys.
Proof.
  induction keys as [|k keys IH]; intros [|r rs] pos; simpl; try discriminate.
  - reflexivity.
  - intros [= H]. f_equal. now apply IH.
Qed.

Lemma table_entries_lookup tape : forall keys resources pos i k r,
  keys !! i = Some k -> resources !! i = Some r ->
  table_entries tape pos keys resources !! i =
  Some (k, {| id := nth_id tape pos i; type := classify_first_map r |}).
Proof.
  induction keys as [|k0 keys IH]; intros [|r0 rs] pos i k r; try discriminate.
  destruct i as [|i]; simpl.
  - intros [= <-] [= <-]. unfold nth_id, id_length.
    now replace (pos + 16 * 0)%nat with pos by lia.
  - intros Hk Hr. rewrite (IH rs _ i k r Hk Hr). unfold nth_id, id_length.
    now replace (pos + 16 + 16 * i)%nat with (pos + 16 * S i)%nat by lia.
Qed.

Lemma table_entries_elem tape keys resources pos k m :
  (k, m) ∈ table_entries tape pos keys resources ->
  exists i r, keys !! i = Some k /\ resources !! i = Some r /\
              m = {| id := nth_id tape pos i; type := classify_first_map r |}.
Proof.
  revert resources pos.
  induction keys as [|k0 keys IH]; intros [|r0 rs] pos; simpl;
    try (intros H; inversion H; fail).
  intros H. apply elem_of_cons in H as [[= -> ->]|H].
  - exists O, r0. split; [reflexivity|]. split; [reflexivity|].
    unfold nth_id, id_length.
    now replace (pos + 16 * 0)%nat with pos by lia.
  - destruct (IH _ _ H) as (i & r & Hk & Hr & ->).
    exists (S i), r. split; [exact Hk|]. split; [exact Hr|].
    unfold nth_id, id_length.
    now replace (pos + 16 + 16 * i)%nat with (pos + 16 * S i)%nat by lia.
Qed.

Lemma foldl_insert_entry (es : list (key * mapping)) : forall tbl : gmap key mapping,
  NoDup es.*1 ->
  (forall k, k ∈ es.*1 -> tbl !! k = None) ->
  foldl insert_entry tbl es = list_to_map es ∪ tbl.
Proof.
  induction es as [|[k m] es IH]; simpl; intros tbl Hnd Hfresh.
  - now rewrite (left_id_L ∅ (∪)).
  - apply NoDup_cons in Hnd as [Hk Hnd].
    rewrite IH; [|exact Hnd|].
    + unfold insert_entry. simpl.
      rewrite <- insert_union_r
        by (apply not_elem_of_list_to_map_1; exact Hk).
      now rewrite insert_union_l.
    + intros k' Hk'. unfold insert_entry. simpl. rewrite lookup_insert_ne.
      * apply Hfresh. now right.
      * intros <-. contradiction.
Qed.

(** C7, the claim as stated fails.  The generator is not checked for
    collisions: when it draws the same characters again, two resources
    with distinct source identifiers get the same target identifier.
    And the table is keyed by [resource.get('id', '')]: two resources
    without [id] share one entry. *)
Lemma resolution_collision_counterexample :
  (let* '(tbl, _) := build_resource_id_map constant_tape two_resources 0 in
   Ok (tbl !! KStr "a", tbl !! KStr "b"))
  = Ok (Some {| id := "aaaaaaaaaaaaaaaa"; type := "JournalEntry" |},
        Some {| id := "aaaaaaaaaaaaaaaa"; type := "JournalEntry" |}) /\
  (let* '(tbl, _) := build_resource_id_map counting_tape unnamed_resources 0 in
   Ok (size tbl)) = Ok 1%nat.
Proof. split; reflexivity. Qed.

(** C7 as amended.  When the well-formed resources have pairwise
    distinct (hashable) source identifiers and the identifiers the
    generator returns during the pass are pairwise distinct, the
    identifier-resolution pass returns a table with exactly one entry
    per resource: its size is the number of resources, its keys are the
    source identifiers, the entry of resource number [i] pairs the
    identifier generated at turn [i] with the classifier's verdict for
    that resource, and distinct entries have distinct target
    identifiers. *)
Theorem resolution_table_entries tape (resources : list value)
    (keys : list key) (pos : nat) :
  forallb well_formed_resource resources = true ->
  mapM source_key resources = Ok keys ->
  NoDup keys ->
  NoDup (map (nth_id tape pos) (seq 0 (List.length resources))) ->
  exists tbl pos',
    build_resource_id_map tape resources pos = Ok (tbl, pos') /\
    size tbl = List.length resources /\
    dom tbl = list_to_set keys /\
    (forall i r k,
       resources !! i = Some r -> keys !! i = Some k ->
       exists doc_type,
         classify_resource r = Ok doc_type /\
         tbl !! k = Some {| id := nth_id tape pos i; type := doc_type |}) /\
    (forall k1 k2 m1 m2,
       k1 <> k2 -> tbl !! k1 = Some m1 -> tbl !! k2 = Some m2 ->
       id m1 <> id m2).
Proof.
  intros Hwf Hkeys Hnd Hids.
  pose proof (mapM_length _ _ _ Hkeys) as Hlen.
  set (es := table_entries tape pos keys resources).
  assert (Hes1 : es.*1 = keys) by now apply table_entries_keys.
  assert (Hnd' : NoDup es.*1) by now rewrite Hes1.
  exists (list_to_map es), (pos + id_length * List.length resources)%nat.
  split; [|split; [|split; [|split]]].
  - unfold build_resource_id_map.
    rewrite (resolve_loop tape resources keys ∅ pos Hwf Hkeys).
    fold es. rewrite foldl_insert_entry; [|exact Hnd'|intros; apply lookup_empty].
    now rewrite (right_id_L ∅ (∪)).
  - rewrite map_size_list_to_map by exact Hnd'.
    rewrite <- Hlen, <- Hes1. now rewrite length_fmap.
  - rewrite dom_list_to_map_L. now rewrite Hes1.
  - intros i r k Hr Hk. exists (classify_first_map r). split.
    + apply classify_resource_first_map.
      rewrite forallb_forall in Hwf. apply Hwf.
      apply list_elem_of_In. eapply list_elem_of_lookup_2. exact Hr.
    + apply elem_of_list_to_map; [exact Hnd'|].
      eapply list_elem_of_lookup_2. apply table_entries_lookup; eauto.
  - intros k1 k2 m1 m2 Hne H1 H2.
    apply elem_of_list_to_map in H1; [|exact Hnd'].
    apply elem_of_list_to_map in H2; [|exact Hnd'].
    destruct (table_entries_elem _ _ _ _ _ _ H1) as (i1 & r1 & Hk1 & Hr1 & ->).
    destruct (table_entries_elem _ _ _ _ _ _ H2) as (i2 & r2 & Hk2 & Hr2 & ->).
    simpl. intros Heq.
    assert (Hi : i1 = i2).
    { eapply (NoDup_lookup _ i1 i2 _ Hids).
      - rewrite list_lookup_fmap, lookup_seq_lt; [reflexivity|].
        apply lookup_lt_Some in Hr1. exact Hr1.
      - rewrite list_lookup_fmap, lookup_seq_lt; [simpl; now rewrite Heq|].
        apply lookup_lt_Some in Hr2. exact Hr2. }
    subst i2. congruence.
Qed.

Lemma resolution_table_entries_witness :
  exists tbl pos',
    build_resource_id_map counting_tape two_resources 0 = Ok (tbl, pos') /\
    size tbl = 2%nat /\
    tbl !! KStr "b"
      = Some {| id := "qrstuvwxyzABCDEF"; type := "JournalEntry" |}.
Proof.
  destruct (resolution_table_entries counting_tape two_resources
              [KStr "a"; KStr "b"] 0 eq_refl eq_refl
              ltac:(compute_done) ltac:(compute_done))
    as (tbl & pos' & Hbuild & Hsize & _ & Hentry & _).
  exists tbl, pos'. split; [exact Hbuild|]. split; [exact Hsize|].
  destruct (Hentry 1%nat (PDict [("id", PStr "b"); ("name", PStr "B")])
              (KStr "b") eq_refl eq_refl) as (doc_type & Hc & Hk).
  injection Hc as <-. exact Hk.
Defined.

(** * Further properties of the code *)

(** ** Identifiers *)

Lemma nth_chars_elem (n : nat) :
  nth (n mod String.length chars) (list_ascii_of_string chars) "a"%char
    ∈ list_ascii_of_string chars.
Proof.
  apply list_elem_of_In, nth_In.
  change (List.length (list_ascii_of_string chars)) with 62%nat.
  change (String.length chars) with 62%nat.
  apply Nat.mod_upper_bound. discriminate.
Qed.

(** X1.  [generate_id] returns exactly [length] characters, each taken
    from the 62 letters and digits, and advances the generator by
    [length] draws. *)
Theorem generate_id_alphanumeric (tape : nat -> nat) (n pos : nat) :
  String.length (fst (generate_id tape n pos)) = n /\
  snd (generate_id tape n pos) = (pos + n)%nat /\
  Forall (fun c => c ∈ list_ascii_of_string chars)
         (list_ascii_of_string (fst (generate_id tape n pos))).
Proof.
  unfold generate_id. revert pos.
  induction n as [|n IH]; intros pos; simpl.
  - split; [reflexivity|]. split; [lia | constructor].
  - destruct (IH (S pos)) as (Hlen & Hpos & Hall).
    destruct (random_chars tape n (S pos)) as [s pos']. simpl in *.
    split; [now rewrite Hlen|]. split; [lia|].
    constructor; [apply nth_chars_elem | exact Hall].
Qed.

(** ** The transducer *)

Lemma apply_mark_wrap (text : string) (mark : value) :
  is_dict mark = true ->
  apply_mark (PStr text) mark = Ok (PStr (wrap_mark text mark)).
Proof.
  destruct mark as [| | | | |m]; try discriminate. intros _.
  unfold apply_mark, wrap_mark, mark_tag. simpl.
  repeat match goal with
         | |- context [if py_eq_str ?v ?s then _ else _] =>
             destruct (py_eq_str v s); [reflexivity|]
         end.
  reflexivity.
Qed.

Lemma foldM_apply_marks (marks : list value) : forall text : string,
  forallb is_dict marks = true ->
  foldM apply_mark marks (PStr text)
    = Ok (PStr (fold_left wrap_mark marks text)).
Proof.
  induction marks as [|m marks IH]; simpl; intros text H; [reflexivity|].
  apply andb_prop in H as [Hm H].
  rewrite (apply_mark_wrap text m Hm). simpl. now apply IH.
Qed.

(** X2.  A text node whose [marks] are dicts renders its text with
    the marks applied in list order, the first mark innermost: strong,
    em, code, underline and strike wrap it in their tag, every other
    mark type leaves it unchanged.  The text itself is inserted as it
    is, without HTML escaping. *)
Theorem text_marks_nest image_map (tbl : gmap key mapping)
    d (text : string) (marks : list value) :
  dict_get "type" d = Some (PStr "text") ->
  default (PStr "") (dict_get "text" d) = PStr text ->
  default (PList []) (dict_get "marks" d) = PList marks ->
  forallb is_dict marks = true ->
  process_node image_map tbl (PDict d)
    = Ok (PStr (fold_left wrap_mark marks text)).
Proof.
  intros Hty Htext Hmarks Hdicts.
  simpl. rewrite Hty, Htext, Hmarks. simpl.
  now apply foldM_apply_marks.
Qed.

Lemma text_marks_nest_witness :
  process_node ∅ ∅ marked_text_node
    = Ok (PStr "<em><strong>a<b</strong></em>").
Proof.
  exact (text_marks_nest ∅ ∅
           [("type", PStr "text"); ("text", PStr "a<b");
            ("marks", PList [PDict [("type", PStr "strong")];
                             PDict [("type", PStr "link")];
                             PDict [("type", PStr "em")]])]
           "a<b"
           [PDict [("type", PStr "strong")]; PDict [("type", PStr "link")];
            PDict [("type", PStr "em")]]
           eq_refl eq_refl eq_refl eq_refl).
Defined.

(** X3.  A dict node whose type tag is none of the seventeen known
    tags (also a missing or non-string tag) renders to the
    concatenation of its rendered children and nothing else; its
    [attrs] and [marks] are not looked at. *)
Theorem unknown_type_passes_children image_map (tbl : gmap key mapping)
    d (children : list value) (htmls : list string) :
  forallb (fun t => negb (py_eq_str (default (PStr "") (dict_get "type" d)) t))
          known_types = true ->
  default (PList []) (dict_get "content" d) = PList children ->
  mapM (process_node image_map tbl) children = Ok (map PStr htmls) ->
  process_node image_map tbl (PDict d) = Ok (PStr (concat_all htmls)).
Proof.
  intros Hty Hcontent Hchildren.
  simpl in Hty. repeat (apply andb_prop in Hty as [?%negb_true_iff Hty]).
  simpl.
  repeat match goal with
         | H : py_eq_str _ _ = false |- _ => rewrite H; clear H
         end.
  rewrite (map_content_list _ d children Hcontent), Hchildren. simpl.
  now rewrite py_join_strs.
Qed.

Lemma unknown_type_passes_children_witness :
  process_node ∅ ∅ custom_block_node = Ok (PStr "z<hr />").
Proof.
  exact (unknown_type_passes_children ∅ ∅
           [("type", PStr "customBlock"); ("attrs", PInt 7);
            ("content", PList [PDict [("type", PStr "text"); ("text", PStr "z")];
                               PStr "stray";
                               PDict [("type", PStr "rule")]])]
           [PDict [("type", PStr "text"); ("text", PStr "z")]; PStr "stray";
            PDict [("type", PStr "rule")]]
           ["z"; ""; "<hr />"] eq_refl eq_refl eq_refl).
Defined.
Lemma append_assoc (s1 s2 s3 : string) : (s1 +:+ s2) +:+ s3 = s1 +:+ (s2 +:+ s3).
Proof.
  induction s1 as [|c s1 IH]; [reflexivity|].
  change (String c ((s1 +:+ s2) +:+ s3) = String c (s1 +:+ (s2 +:+ s3))).
  now rewrite IH.
Qed.

Lemma mapM_app {A B} (f : A -> result B) (l1 l2 : list A) r1 r2 :
  mapM f l1 = Ok r1 -> mapM f l2 = Ok r2 ->
  mapM f (l1 ++ l2)%list = Ok (r1 ++ r2)%list.
Proof.
  revert r1. induction l1 as [|x l1 IH]; simpl; intros r1 H1 H2.
  - injection H1 as <-. exact H2.
  - apply bind_Ok in H1 as (y & Hy & H1). apply bind_Ok in H1 as (ys & Hys & H1).
    injection H1 as <-. rewrite Hy. simpl. rewrite (IH ys Hys H2). reflexivity.
Qed.

Lemma py_join_app (r1 r2 : list value) (h1 h2 : string) :
  py_join r1 = Ok h1 -> py_join r2 = Ok h2 ->
  py_join (r1 ++ r2)%list = Ok (h1 +:+ h2).
Proof.
  revert h1. induction r1 as [|v r1 IH]; simpl; intros h1 H1 H2.
  - injection H1 as <-. exact H2.
  - destruct v; try discriminate.
    apply bind_Ok in H1 as (rest & Hrest & H1). injection H1 as <-.
    rewrite (IH rest Hrest H2). cbn [bind]. f_equal. symmetry.
    apply append_assoc.
Qed.

Lemma process_doc_of image_map (tbl : gmap key mapping) (l : list value) :
  process_node image_map tbl (doc_of l) =
  let* rendered := mapM (process_node image_map tbl) l in
  let* inner := py_join rendered in Ok (PStr inner).
Proof.
  unfold doc_of. simpl.
  destruct (mapM (process_node image_map tbl) l); reflexivity.
Qed.

(** X4.  Rendering a [doc] distributes over its children: when two
    lists of children render, each as a [doc], to [h1] and [h2], the
    [doc] of the concatenated list renders to [h1] followed by [h2]. *)
Theorem doc_children_concatenate image_map (tbl : gmap key mapping)
    (l1 l2 : list value) (h1 h2 : string) :
  process_node image_map tbl (doc_of l1) = Ok (PStr h1) ->
  process_node image_map tbl (doc_of l2) = Ok (PStr h2) ->
  process_node image_map tbl (doc_of (l1 ++ l2)%list) = Ok (PStr (h1 +:+ h2)).
Proof.
  rewrite !process_doc_of. intros H1 H2.
  apply bind_Ok in H1 as (r1 & Hr1 & H1). apply bind_Ok in H1 as (i1 & Hi1 & [= <-]).
  apply bind_Ok in H2 as (r2 & Hr2 & H2). apply bind_Ok in H2 as (i2 & Hi2 & [= <-]).
  rewrite (mapM_app _ _ _ _ _ Hr1 Hr2). simpl.
  now rewrite (py_join_app _ _ _ _ Hi1 Hi2).
Qed.

Lemma doc_children_concatenate_witness :
  process_node ∅ ∅ (doc_of [marked_text_node; custom_block_node])
    = Ok (PStr "<em><strong>a<b</strong></em>z<hr />").
Proof.
  exact (doc_children_concatenate ∅ ∅ [marked_text_node] [custom_block_node]
           "<em><strong>a<b</strong></em>" "z<hr />" eq_refl eq_refl).
Defined.

Lemma mapM_ext {A B} (f g : A -> result B) (l : list A) :
  Forall (fun x => f x = g x) l -> mapM f l = mapM g l.
Proof.
  induction 1 as [|x l Hx _ IH]; simpl; [reflexivity|].
  now rewrite Hx, IH.
Qed.

(** X5.  The two lookup tables are consulted only at image and
    mention nodes: a tree without such nodes renders to the same
    result, or raises the same exception, whatever the tables. *)
Theorem tables_only_at_images_and_mentions (node : value)
    (image_map image_map' : gmap string string)
    (tbl tbl' : gmap key mapping) :
  table_free node = true ->
  process_node image_map tbl node = process_node image_map' tbl' node.
Proof.
  induction node as [v Hv | d IH] using value_ind_deep.
  - destruct v; try discriminate; reflexivity.
  - intros H. simpl in H.
    apply andb_prop in H as [H Hcontent].
    apply andb_prop in H as [Himage%negb_true_iff Hmention%negb_true_iff].
    assert (Hmap : map_content (process_node image_map tbl) d =
                   map_content (process_node image_map' tbl') d).
    { clear Himage Hmention.
      induction d as [|[k v] d IHd]; simpl; [reflexivity|].
      simpl in Hcontent. destruct (String.eqb k "content") eqn:Hk.
      - destruct v; try reflexivity. apply mapM_ext.
        specialize (IH k l (list_elem_of_here _ _)).
        rewrite forallb_forall in Hcontent.
        rewrite Forall_forall in IH |- *. intros x Hx.
        apply IH; [exact Hx|]. apply Hcontent. now apply list_elem_of_In.
      - apply IHd; [|exact Hcontent].
        intros k' l Hin. apply (IH k'). now right. }
    simpl. rewrite Hmap, Himage, Hmention. reflexivity.
Qed.

Lemma tables_only_at_images_and_mentions_witness :
  process_node banner_table sample_id_table
    (doc_of [marked_text_node; custom_block_node])
  = process_node ∅ ∅ (doc_of [marked_text_node; custom_block_node]).
Proof.
  apply tables_only_at_images_and_mentions. reflexivity.
Defined.

(** ** The classifier *)

Lemma classify_documents_closed (resource : value) (docs : list value) k :
  classify_documents resource docs = Ok k ->
  k = "Scene" \/ k = "JournalEntry".
Proof.
  induction docs as [|doc docs IH]; simpl.
  - intros [= <-]. now right.
  - intros H. apply bind_Ok in H as (ty & _ & H).
    destruct (py_eq_str ty "map"); [|now apply IH].
    apply bind_Ok in H as (map_data & _ & H).
    apply bind_Ok in H as (map_id & _ & H).
    apply bind_Ok in H as (http & _ & H).
    destruct http; [injection H as <-; now left|].
    apply bind_Ok in H as (properties & _ & H).
    apply bind_Ok in H as (props & _ & H).
    apply bind_Ok in H as (found & _ & H).
    destruct found; injection H as <-; auto.
Qed.

Lemma classify_verdict_closed (resource : value) (k : string) :
  classify_resource resource = Ok k ->
  k = "Scene" \/ k = "JournalEntry".
Proof.
  unfold classify_resource. intros H.
  apply bind_Ok in H as (documents & _ & H).
  apply bind_Ok in H as (docs & _ & H).
  now apply classify_documents_closed in H.
Qed.

(** X6.  Whatever the resource, well formed or not, a verdict the
    classifier returns is Scene or JournalEntry: it never selects
    another kind. *)
Theorem classify_resource_closed (resource : value) (k : string) :
  classify_resource resource = Ok k ->
  k = "Scene" \/ k = "JournalEntry".
Proof.
  unfold classify_resource. intros H.
  apply bind_Ok in H as (documents & _ & H).
  apply bind_Ok in H as (docs & _ & H).
  now apply classify_documents_closed in H.
Qed.

Lemma classify_resource_closed_witness :
  classify_resource property_scene_resource = Ok "Scene" /\
  ("Scene" = "Scene" \/ "Scene" = "JournalEntry").
Proof.
  split; [reflexivity|].
  exact (classify_resource_closed property_scene_resource "Scene" eq_refl).
Defined.

(** X7.  A resource whose documents are dicts none of which is of
    kind map is a JournalEntry; its [properties] are not read, so IMAGE
    properties alone never make a Scene and a malformed [properties]
    does no harm. *)
Theorem no_map_document_is_journal (d : list (string * value))
    (docs : list value) :
  default (PList []) (dict_get "documents" d) = PList docs ->
  forallb is_dict docs = true ->
  existsb (has_type "map") docs = false ->
  classify_resource (PDict d) = Ok "JournalEntry".
Proof.
  intros Hdocs Hdicts Hmap. unfold classify_resource. simpl.
  rewrite Hdocs. simpl. clear Hdocs.
  induction docs as [|doc docs IH]; simpl; [reflexivity|].
  simpl in Hdicts, Hmap. apply andb_prop in Hdicts as [Hdoc Hdicts].
  apply orb_false_elim in Hmap as [Hty Hmap].
  destruct doc as [| | | | |m]; try discriminate.
  unfold has_type in Hty. simpl in *. rewrite Hty. now apply IH.
Qed.

Lemma no_map_document_is_journal_witness :
  classify_resource portrait_resource = Ok "JournalEntry".
Proof.
  exact (no_map_document_is_journal
           [("id", PStr "r6");
            ("documents", PList [PDict [("type", PStr "page")]]);
            ("properties", PInt 5)]
           [PDict [("type", PStr "page")]] eq_refl eq_refl eq_refl).
Defined.

(** ** The asset locator *)

Lemma elem_of_collect (data : value) (s : string) :
  s ∈ collect_image_urls data <->
  occurs_under s data /\ str_contains asset_host s = true.
Proof.
  unfold collect_image_urls. rewrite elem_of_extract_urls.
  split; [|auto]. intros [H|H]; [|exact H]. now apply not_elem_of_empty in H.
Qed.

(** X8.  The locator's result for a list is the union of its results
    for the items; for a dict it is the dict's own [url] and [mapId]
    strings that contain the asset host, together with the union of
    its results for the dict's values. *)
Theorem collect_distributes (l : list value) (d : list (string * value)) :
  collect_image_urls (PList l) = ⋃ (collect_image_urls <$> l) /\
  collect_image_urls (PDict d) =
    add_asset "url" d ∅ ∪ add_asset "mapId" d ∅
    ∪ ⋃ ((fun kv => collect_image_urls (snd kv)) <$> d).
Proof.
  split; apply set_eq; intros s.
  - rewrite elem_of_collect, elem_of_union_list. split.
    + intros [Ho Hc]. inversion Ho as [| |l0 v Hin Hv]; subst.
      exists (collect_image_urls v). split.
      * apply list_elem_of_fmap. eauto.
      * apply elem_of_collect. auto.
    + intros (X & HX & Hs). apply list_elem_of_fmap in HX as (v & -> & Hin).
      apply elem_of_collect in Hs as [Ho Hc].
      split; [|exact Hc]. eapply occurs_in_list; eauto.
  - rewrite elem_of_collect, !elem_of_union, !elem_of_add_asset,
      elem_of_union_list. split.
    + intros [Ho Hc].
      inversion Ho as [d0 k [->| ->] Hg|d0 k v Hin Hv|]; subst.
      * left. left. right. auto.
      * left. right. right. auto.
      * right. exists (collect_image_urls v). split.
        -- apply list_elem_of_fmap. exists (k, v). auto.
        -- apply elem_of_collect. auto.
    + intros [[[H|[Hg Hc]]|[H|[Hg Hc]]]|(X & HX & Hs)].
      * now apply not_elem_of_empty in H.
      * split; [|exact Hc]. apply (occurs_here s d "url"); auto.
      * now apply not_elem_of_empty in H.
      * split; [|exact Hc]. apply (occurs_here s d "mapId"); auto.
      * apply list_elem_of_fmap in HX as ([k v] & -> & Hin).
        apply elem_of_collect in Hs as [Ho Hc].
        split; [|exact Hc]. eapply occurs_in_dict; eauto.
Qed.

(** ** Downloading an asset *)

Lemma str_contains_slash_cons (c : ascii) (s : string) :
  str_contains "/" (String c s) = Ascii.eqb c "/" || str_contains "/" s.
Proof.
  change (str_contains "/" (String c s))
    with ((if ascii_dec "/" c then String.prefix "" s else false)
          || str_contains "/" s).
  destruct (ascii_dec "/" c) as [<-|Hne].
  - now destruct s.
  - assert (Ascii.eqb c "/" = false) as ->
      by (apply Ascii.eqb_neq; congruence).
    reflexivity.
Qed.

Lemma last_segment_no_slash (s : string) :
  str_contains "/" (last_segment s) = false.
Proof.
  induction s as [|c s IH]; [reflexivity|].
  cbn [last_segment].
  destruct (str_contains "/" s) eqn:Hs; [exact IH|].
  destruct (Ascii.eqb c "/") eqn:Hc; [exact Hs|].
  now rewrite str_contains_slash_cons, Hc, Hs.
Qed.

Lemma last_segment_suffix (s : string) :
  (str_contains "/" s = false /\ last_segment s = s) \/
  exists pre, s = pre +:+ "/" +:+ last_segment s.
Proof.
  induction s as [|c s IH]; [left; split; reflexivity|].
  cbn [last_segment]. rewrite str_contains_slash_cons.
  destruct (str_contains "/" s) eqn:Hs.
  - right. destruct IH as [[Hno _]|[pre Hpre]]; [congruence|].
    exists (String c pre).
    change (String c s = String c (pre +:+ "/" +:+ last_segment s)).
    now rewrite <- Hpre.
  - destruct (Ascii.eqb c "/") eqn:Hc.
    + right. exists "". apply Ascii.eqb_eq in Hc as ->. reflexivity.
    + left. split; reflexivity.
Qed.

Lemma path_join_segment (category filename : string) :
  ends_with_slash ("assets/" +:+ category) = false ->
  str_contains "/" filename = false ->
  path_join ("assets/" +:+ category) filename
    = "assets/" +:+ category +:+ "/" +:+ filename.
Proof.
  intros Hcat Hfile. unfold path_join. rewrite Hcat.
  destruct filename as [|c f]; [reflexivity|].
  rewrite str_contains_slash_cons in Hfile.
  apply orb_false_elim in Hfile as [Hc _].
  change (String.prefix "/" (String c f))
    with (if ascii_dec "/" c then String.prefix "" f else false).
  destruct (ascii_dec "/" c) as [<-|Hne]; [discriminate|]. reflexivity.
Qed.

(** X9.  When [download_image] returns a path (for a category that
    does not end in a slash, as the three categories of [main]), the url
    starts with [http] and contains the asset host, and the path is
    [modules/tennisfel/assets/<category>/<segment>] where the segment
    is what follows the last slash of the url and holds no slash: every
    file lands directly in its category directory. *)
Theorem download_image_local_path (path_exists : string -> bool)
    (urlretrieve : string -> string -> bool) (url category p : string) :
  ends_with_slash ("assets/" +:+ category) = false ->
  download_image path_exists urlretrieve url category = Some p ->
  String.prefix "http" url = true /\
  str_contains asset_host url = true /\
  p = "modules/tennisfel/assets/" +:+ category +:+ "/" +:+ last_segment url /\
  str_contains "/" (last_segment url) = false /\
  (url = last_segment url \/
   exists pre, url = pre +:+ "/" +:+ last_segment url).
Proof.
  intros Hcat. unfold download_image.
  destruct (String.prefix "http" url) eqn:Hhttp;
    [|rewrite orb_true_r; discriminate].
  destruct (negb (py_truthy (PStr url))); [discriminate|]. simpl.
  destruct (str_contains asset_host url) eqn:Hhost; [|discriminate]. simpl.
  destruct (negb (path_exists _) && negb (urlretrieve url _)); [discriminate|].
  intros [= <-].
  pose proof (last_segment_no_slash url) as Hno.
  rewrite (path_join_segment _ _ Hcat Hno).
  split; [reflexivity|]. split; [reflexivity|]. split; [reflexivity|].
  split; [exact Hno|].
  destruct (last_segment_suffix url) as [[_ Hsame]|Hpre]; auto.
Qed.

Lemma download_image_local_path_witness :
  download_image (fun _ => false) (fun _ _ => true) asset_a "banners"
    = Some "modules/tennisfel/assets/banners/a.png".
Proof.
  destruct (download_image (fun _ => false) (fun _ _ => true) asset_a "banners")
    as [p|] eqn:Hp; [|discriminate].
  destruct (download_image_local_path _ _ asset_a "banners" p eq_refl Hp)
    as (_ & _ & -> & _).
  reflexivity.
Defined.

(** X10.  For a URL that the locator collected, [download_image]
    returns None exactly when the URL does not start with [http], or
    the file neither exists locally nor can be fetched; its host check
    never rejects a collected URL.  So a collected reference without
    scheme is never materialised. *)
Theorem collected_url_download (path_exists : string -> bool)
    (urlretrieve : string -> string -> bool) (data : value)
    (url category : string) :
  url ∈ collect_image_urls data ->
  download_image path_exists urlretrieve url category = None <->
  String.prefix "http" url = false \/
  (path_exists (path_join ("assets/" +:+ category) (last_segment url)) = false /\
   urlretrieve url (path_join ("assets/" +:+ category) (last_segment url))
     = false).
Proof.
  intros Hin. apply elem_of_collect in Hin as [_ Hhost].
  assert (Hurl : py_truthy (PStr url) = true).
  { destruct url; [discriminate | reflexivity]. }
  unfold download_image. rewrite Hhost, Hurl. simpl.
  destruct (String.prefix "http" url); simpl.
  - destruct (path_exists _), (urlretrieve url _); simpl; split;
      try discriminate; try tauto; intros [?|[? ?]]; discriminate.
  - split; auto.
Qed.

Lemma collected_url_download_witness :
  "assets.legendkeeper.com/x.png"
    ∈ collect_image_urls (PDict [("url", PStr "assets.legendkeeper.com/x.png")]) /\
  download_image (fun _ => true) (fun _ _ => true)
    "assets.legendkeeper.com/x.png" "images" = None.
Proof.
  split; [reflexivity|].
  apply (collected_url_download (fun _ => true) (fun _ _ => true)
           (PDict [("url", PStr "assets.legendkeeper.com/x.png")])
           "assets.legendkeeper.com/x.png" "images"); [reflexivity|].
  left. reflexivity.
Defined.

(** X11.  Two URLs with the same last path segment, downloaded into
    the same category, get the same local path, whatever the state of
    the disk and of the network: distinct remote images with one file
    name share one local file. *)
Theorem same_filename_same_local_path
    (path_exists path_exists' : string -> bool)
    (urlretrieve urlretrieve' : string -> string -> bool)
    (url1 url2 category p1 p2 : string) :
  last_segment url1 = last_segment url2 ->
  download_image path_exists urlretrieve url1 category = Some p1 ->
  download_image path_exists' urlretrieve' url2 category = Some p2 ->
  p1 = p2.
Proof.
  intros Hseg. unfold download_image. rewrite Hseg.
  repeat match goal with
         | |- context [if ?b then _ else _] => destruct b; try discriminate
         end.
  congruence.
Qed.

Lemma same_filename_same_local_path_witness :
  "https://assets.legendkeeper.com/north/map.png"
    <> "https://assets.legendkeeper.com/south/map.png" /\
  download_image (fun _ => false) (fun _ _ => true)
    "https://assets.legendkeeper.com/north/map.png" "maps"
  = download_image (fun _ => true) (fun _ _ => false)
    "https://assets.legendkeeper.com/south/map.png" "maps".
Proof.
  split; [discriminate|].
  destruct (download_image (fun _ => false) (fun _ _ => true)
              "https://assets.legendkeeper.com/north/map.png" "maps")
    as [p1|] eqn:H1; [|discriminate].
  destruct (download_image (fun _ => true) (fun _ _ => false)
              "https://assets.legendkeeper.com/south/map.png" "maps")
    as [p2|] eqn:H2; [|discriminate].
  f_equal.
  exact (same_filename_same_local_path _ _ _ _
           "https://assets.legendkeeper.com/north/map.png"
           "https://assets.legendkeeper.com/south/map.png"
           "maps" p1 p2 eq_refl H1 H2).
Defined.

(** ** The scene builder *)

Lemma image_map_lookup_range (image_map : gmap string string) (v : value) path :
  image_map_lookup image_map v = Ok (Some path) ->
  exists u, v = PStr u /\ image_map !! u = Some path.
Proof.
  unfold image_map_lookup. intros H. apply bind_Ok in H as (k & Hk & H).
  destruct v as [|b|z|u| |]; try discriminate; injection Hk as <-;
    try discriminate.
  injection H as H. eauto.
Qed.

Lemma fallback_background_range (image_map : gmap string string)
    (props : list value) (bg r : option string) :
  fallback_background image_map props bg = Ok r ->
  r = bg \/ exists u path, image_map !! u = Some path /\ r = Some path.
Proof.
  induction props as [|prop props IH]; simpl.
  - intros [= <-]. now left.
  - intros H. apply bind_Ok in H as (ty & _ & H).
    destruct (py_eq_str ty "IMAGE"); [|now apply IH].
    apply bind_Ok in H as (data & _ & H).
    apply bind_Ok in H as (url & _ & H).
    apply bind_Ok in H as (local & Hlocal & H).
    destruct local as [path|]; [|now apply IH].
    injection H as <-. right.
    destruct (py_truthy url); [|discriminate].
    apply image_map_lookup_range in Hlocal as (u & _ & Hu). eauto.
Qed.

(** X12.  The background of a scene the builder returns is null or a
    local path stored in the asset table; it is never a remote URL
    taken from the resource. *)
Theorem scene_background_is_local (tape : nat -> nat) (resource : value)
    (image_map : gmap string string) (pos : nat) (s : scene) (pos' : nat) :
  create_scene_entry tape resource image_map pos = Ok (s, pos') ->
  scene_background s = None \/
  exists u path, image_map !! u = Some path /\ scene_background s = Some path.
Proof.
  unfold create_scene_entry.
  destruct (generate_id tape id_length pos) as [sid pos1]. intros H.
  apply bind_Ok in H as (name & _ & H).
  apply bind_Ok in H as (documents & _ & H).
  apply bind_Ok in H as (docs & _ & H).
  apply bind_Ok in H as (map_doc & _ & H).
  apply bind_Ok in H as (bg & Hbg & H).
  apply bind_Ok in H as (bg' & Hbg' & H).
  apply bind_Ok in H as (lid & _ & H).
  apply bind_Ok in H as (tags & _ & H).
  injection H as <- <-. simpl.
  assert (Hfirst : bg = None \/
            exists u path, image_map !! u = Some path /\ bg = Some path).
  { destruct map_doc as [doc|]; [|injection Hbg as <-; now left].
    destruct (py_truthy doc); [|injection Hbg as <-; now left].
    apply bind_Ok in Hbg as (map_data & _ & Hbg).
    apply bind_Ok in Hbg as (map_url & _ & Hbg).
    destruct (py_truthy map_url); [|injection Hbg as <-; now left].
    destruct bg as [path|]; [|now left].
    apply image_map_lookup_range in Hbg as (u & _ & Hu). right. eauto. }
  destruct (negb (background_truthy bg)); [|injection Hbg' as <-; exact Hfirst].
  apply bind_Ok in Hbg' as (properties & _ & Hbg').
  apply bind_Ok in Hbg' as (props & _ & Hbg').
  apply fallback_background_range in Hbg' as [->|Hr]; [exact Hfirst|].
  now right.
Qed.

Lemma find_map_doc_find (docs : list value) :
  forallb is_dict docs = true ->
  find_map_doc docs = Ok (List.find (has_type "map") docs).
Proof.
  induction docs as [|doc docs IH]; simpl; [reflexivity|].
  intros H. apply andb_prop in H as [Hdoc H].
  destruct doc as [| | | | |m]; try discriminate.
  unfold has_type. simpl.
  destruct (py_eq_str (default PNone (dict_get "type" m)) "map");
    [reflexivity | now apply IH].
Qed.

(** X13.  When the first map-kind document of a resource (all of
    whose documents are dicts) carries a non-empty [mapId] that the
    asset table maps to a non-empty path, the scene builder returns a
    scene with that path as background, whatever the [properties]
    hold, and its identifier is the one drawn first. *)
Theorem scene_background_first_map (tape : nat -> nat)
    (d : list (string * value)) (docs : list value) (doc : value)
    (image_map : gmap string string) (u path : string) (pos : nat) :
  default (PList []) (dict_get "documents" d) = PList docs ->
  forallb is_dict docs = true ->
  List.find (has_type "map") docs = Some doc ->
  field "mapId" (PStr "") (field "map" (PDict []) doc) = PStr u ->
  u <> "" ->
  image_map !! u = Some path ->
  path <> "" ->
  exists s,
    create_scene_entry tape (PDict d) image_map pos = Ok (s, (pos + id_length)%nat) /\
    scene_background s = Some path /\
    scene_id s = fst (generate_id tape id_length pos).
Proof.
  intros Hdocs Hdicts Hfind Hmap Hu Hpath Hne.
  unfold create_scene_entry. rewrite (generate_id_eq tape pos).
  simpl. rewrite Hdocs. simpl.
  rewrite (find_map_doc_find docs Hdicts), Hfind. simpl.
  apply find_some in Hfind as [Hin Hty].
  rewrite forallb_forall in Hdicts. specialize (Hdicts doc Hin).
  destruct doc as [| | | | |m]; try discriminate.
  assert (Hm : m <> []) by (intros ->; discriminate).
  destruct m as [|b m]; [congruence|]. cbn [py_truthy].
  remember (b :: m) as bm eqn:Hbm. clear Hbm.
  simpl in Hmap.
  destruct (default (PDict []) (dict_get "map" bm)) as [| | | | |md] eqn:Hmd;
    simpl in Hmap; try (injection Hmap as <-; congruence).
  simpl. rewrite Hmd. simpl. rewrite Hmap. simpl.
  apply String.eqb_neq in Hu. rewrite Hu. simpl.
  unfold image_map_lookup. simpl. rewrite Hpath. simpl.
  apply String.eqb_neq in Hne. rewrite Hne. simpl.
  eexists. split; [reflexivity|]. split; reflexivity.
Qed.
Lemma guarded_lookup_total (image_map : gmap string string) (v : value) :
  url_field_ok v = true ->
  exists local,
    (if py_truthy v then image_map_lookup image_map v else Ok None) = Ok local.
Proof.
  unfold url_field_ok. intros H.
  destruct (py_truthy v) eqn:Ht; [|eauto].
  rewrite orb_false_r in H.
  destruct v as [| | |u| |]; try discriminate.
  unfold image_map_lookup. simpl. eauto.
Qed.

Lemma fallback_background_total (image_map : gmap string string)
    (props : list value) (bg : option string) :
  forallb well_formed_property props = true ->
  exists r, fallback_background image_map props bg = Ok r.
Proof.
  induction props as [|prop props IH]; simpl; [eauto|].
  intros H. apply andb_prop in H as [Hprop Hprops].
  unfold well_formed_property in Hprop. apply andb_prop in Hprop as [Hd Hprop].
  destruct prop as [| | | | |p]; try discriminate.
  unfold has_type in Hprop. simpl in *.
  destruct (py_eq_str (default PNone (dict_get "type" p)) "IMAGE"); [|auto].
  destruct (default (PDict []) (dict_get "data" p)) as [| | | | |data];
    try discriminate.
  simpl.
  destruct (guarded_lookup_total image_map _ Hprop) as [local ->]. simpl.
  destruct local; eauto.
Qed.

(** X14.  On every well-formed resource the scene builder returns a
    scene, for every asset table; it draws exactly one identifier, and
    the name defaults to ["Untitled Scene"], the source identifier to
    [""]. *)
Theorem scene_builder_total (tape : nat -> nat) (resource : value)
    (image_map : gmap string string) (pos : nat) :
  well_formed_resource resource = true ->
  exists s,
    create_scene_entry tape resource image_map pos
      = Ok (s, (pos + id_length)%nat) /\
    scene_id s = fst (generate_id tape id_length pos) /\
    scene_name s = field "name" (PStr "Untitled Scene") resource /\
    scene_legendkeeper_id s = field "id" (PStr "") resource.
Proof.
  destruct resource as [| | | | |d]; try discriminate. simpl.
  destruct (default (PList []) (dict_get "documents" d))
    as [| | | |docs|] eqn:Hdocs; try discriminate.
  destruct (default (PList []) (dict_get "properties" d))
    as [| | | |props|] eqn:Hprops; try discriminate.
  intros H. apply andb_prop in H as [Hd Hp].
  assert (Hdicts : forallb is_dict docs = true).
  { rewrite forallb_forall in Hd |- *. intros x Hx. specialize (Hd x Hx).
    unfold well_formed_document in Hd. now apply andb_prop in Hd as [? _]. }
  assert (Hbg : exists bg,
    match List.find (has_type "map") docs with
    | Some doc =>
        if py_truthy doc then
          let* map_data := py_get doc "map" (PDict []) in
          let* map_url := py_get map_data "mapId" (PStr "") in
          if py_truthy map_url then image_map_lookup image_map map_url
          else Ok None
        else Ok None
    | None => Ok None
    end = Ok bg).
  { destruct (List.find (has_type "map") docs) as [doc|] eqn:Hfind; [|eauto].
    apply find_some in Hfind as [Hin Hty].
    rewrite forallb_forall in Hd. specialize (Hd doc Hin).
    unfold well_formed_document in Hd. apply andb_prop in Hd as [Hdict Hd].
    rewrite Hty in Hd.
    destruct doc as [| | | | |m]; try discriminate.
    destruct (py_truthy (PDict m)); [|eauto].
    simpl in *.
    destruct (default (PDict []) (dict_get "map" m)) as [| | | | |md];
      try discriminate.
    simpl. apply guarded_lookup_total. exact Hd. }
  destruct Hbg as [bg Hbg].
  unfold create_scene_entry. rewrite (generate_id_eq tape pos).
  cbn [py_get bind]. rewrite Hdocs. cbn [py_iter bind].
  rewrite (find_map_doc_find docs Hdicts). cbn [bind].
  rewrite Hbg. cbn [bind]. rewrite Hprops. cbn [py_iter bind].
  destruct (negb (background_truthy bg)).
  - destruct (fallback_background_total image_map props bg Hp) as [bg' ->].
    cbn [bind]. eexists. split; [reflexivity|]. cbn. auto.
  - cbn [bind]. eexists. split; [reflexivity|]. cbn. auto.
Qed.

Lemma scene_background_is_local_witness :
  exists s pos',
    create_scene_entry counting_tape map_scene_resource map_table 0
      = Ok (s, pos') /\
    (scene_background s = None \/
     exists u path,
       map_table !! u = Some path /\ scene_background s = Some path).
Proof.
  eexists. eexists. split; [reflexivity|].
  exact (scene_background_is_local counting_tape map_scene_resource map_table
           0 _ _ eq_refl).
Defined.

Lemma scene_background_first_map_witness :
  exists s,
    create_scene_entry counting_tape map_scene_resource map_table 0
      = Ok (s, 16%nat) /\
    scene_background s = Some "modules/tennisfel/assets/maps/m.webp".
Proof.
  destruct (scene_background_first_map counting_tape
              [("id", PStr "r7");
               ("documents",
                PList [PDict [("type", PStr "page")];
                       PDict [("type", PStr "map");
                              ("map", PDict [("mapId", PStr map_url)])]]);
               ("properties", PStr "none")]
              [PDict [("type", PStr "page")];
               PDict [("type", PStr "map");
                      ("map", PDict [("mapId", PStr map_url)])]]
              (PDict [("type", PStr "map");
                      ("map", PDict [("mapId", PStr map_url)])])
              map_table map_url "modules/tennisfel/assets/maps/m.webp" 0
              eq_refl eq_refl eq_refl eq_refl
              ltac:(discriminate) eq_refl ltac:(discriminate))
    as (s & Hs & Hbg & _).
  exists s. split; [exact Hs | exact Hbg].
Defined.

Lemma scene_builder_total_witness :
  exists s,
    create_scene_entry counting_tape property_scene_resource ∅ 0
      = Ok (s, 16%nat) /\
    scene_name s = PStr "Untitled Scene".
Proof.
  destruct (scene_builder_total counting_tape property_scene_resource ∅ 0
              eq_refl) as (s & Hs & _ & Hname & _).
  exists s. split; [exact Hs | exact Hname].
Defined.

(** ** The journal builder *)

Lemma journal_fold tape image_map resource_id_map (docs : list value) :
  forall pages0 pos0 pages pos1,
  foldM (journal_page_step tape image_map resource_id_map) docs (pages0, pos0)
    = Ok (pages, pos1) ->
  exists new,
    pages = (pages0 ++ new)%list /\
    map page_sort new
      = seq (List.length pages0)
            (List.length (List.filter (has_type "page") docs)) /\
    map page_name new
      = map (field "name" (PStr "Main")) (List.filter (has_type "page") docs) /\
    pos1 = (pos0 + id_length * List.length (List.filter (has_type "page") docs))%nat.
Proof.
  induction docs as [|doc docs IH]; intros pages0 pos0 pages pos1 H.
  - injection H as <- <-. exists []. simpl. rewrite app_nil_r.
    unfold id_length. repeat split; lia.
  - cbn [foldM] in H. apply bind_Ok in H as ([pages1 pos2] & Hstep & H).
    unfold journal_page_step in Hstep.
    apply bind_Ok in Hstep as (ty & Hty & Hstep).
    destruct doc as [| | | | |m]; try discriminate. injection Hty as <-.
    cbn [List.filter].
    change (py_eq_str (default PNone (dict_get "type" m)) "page")
      with (has_type "page" (PDict m)) in Hstep.
    destruct (has_type "page" (PDict m)).
    + rewrite (generate_id_eq tape pos0) in Hstep.
      apply bind_Ok in Hstep as (page_name & Hname & Hstep).
      apply bind_Ok in Hstep as (content & _ & Hstep).
      apply bind_Ok in Hstep as (html & _ & Hstep).
      injection Hstep as <- <-. injection Hname as <-.
      destruct (IH _ _ _ _ H) as (new & -> & Hsort & Hnames & ->).
      eexists (_ :: new). split; [now rewrite <- app_assoc|].
      rewrite length_app in Hsort. simpl in Hsort.
      replace (List.length pages0 + 1)%nat with (S (List.length pages0)) in Hsort
        by lia.
      cbn [map page_sort page_name List.length seq].
      rewrite Hsort, Hnames. unfold id_length.
      split; [reflexivity|]. split; [reflexivity|]. lia.
    + injection Hstep as <- <-. exact (IH _ _ _ _ H).
Qed.

(** X15.  An entry the journal builder returns has one page per
    page-kind document, in document order and named after the document
    (["Main"] by default), or the single placeholder page when there is
    none; the [sort] fields count 0, 1, 2, ...; and the builder draws
    one identifier for the entry and one per page. *)
Theorem journal_pages_follow_documents tape image_map resource_id_map
    (resource : value) (pos : nat) (entry : journal_entry) (pos' : nat) :
  create_journal_entry tape image_map resource_id_map resource pos
    = Ok (entry, pos') ->
  exists docs,
    py_iter (field "documents" (PList []) resource) = Ok docs /\
    let n := List.length (List.filter (has_type "page") docs) in
    List.length (entry_pages entry) = Nat.max 1 n /\
    map page_sort (entry_pages entry) = seq 0 (Nat.max 1 n) /\
    (n <> 0%nat ->
     map page_name (entry_pages entry)
       = map (field "name" (PStr "Main")) (List.filter (has_type "page") docs)) /\
    entry_id entry = fst (generate_id tape id_length pos) /\
    pos' = (pos + id_length * (1 + Nat.max 1 n))%nat.
Proof.
  unfold create_journal_entry. rewrite (generate_id_eq tape pos). intros H.
  apply bind_Ok in H as (name & Hname & H).
  apply bind_Ok in H as (documents & Hdocuments & H).
  apply bind_Ok in H as (docs & Hdocs & H).
  apply bind_Ok in H as ([pages pos2] & Hfold & H).
  destruct resource as [| | | | |d]; try discriminate.
  injection Hdocuments as <-.
  exists docs. split; [exact Hdocs|].
  apply journal_fold in Hfold as (new & -> & Hsort & Hnames & ->).
  simpl in Hsort |- *.
  set (n := List.length (List.filter (has_type "page") docs)) in *.
  assert (Hlen : List.length new = n).
  { rewrite <- (length_map page_sort), Hsort. apply length_seq. }
  change ([] ++ new)%list with new in H.
  destruct new as [|p new].
  - rewrite (generate_id_eq tape (pos + id_length + id_length * n)) in H.
    cbv beta iota zeta in H.
    apply bind_Ok in H as (banner & _ & H).
    apply bind_Ok in H as (banner_url & _ & H).
    apply bind_Ok in H as (local & _ & H).
    apply bind_Ok in H as (pages'' & Hpages & H).
    apply bind_Ok in H as (lid & _ & H).
    apply bind_Ok in H as (tags & _ & H).
    injection H as <- <-. cbn [entry_pages entry_id].
    simpl in Hlen. rewrite <- Hlen.
    assert (Hone : List.length pages'' = 1%nat /\ map page_sort pages'' = [0%nat]).
    { destruct local as [path|]; [|injection Hpages as <-; auto].
      apply bind_Ok in Hpages as (content & _ & [= <-]). auto. }
    destruct Hone as [-> ->]. unfold id_length. simpl.
    repeat split; lia.
  - cbv beta iota zeta in H.
    apply bind_Ok in H as (banner & _ & H).
    apply bind_Ok in H as (banner_url & _ & H).
    apply bind_Ok in H as (local & _ & H).
    apply bind_Ok in H as (pages'' & Hpages & H).
    apply bind_Ok in H as (lid & _ & H).
    apply bind_Ok in H as (tags & _ & H).
    injection H as <- <-. cbn [entry_pages entry_id].
    assert (Hsame : List.length pages'' = List.length (p :: new) /\
                    map page_sort pages'' = map page_sort (p :: new) /\
                    map page_name pages'' = map page_name (p :: new)).
    { destruct local as [path|]; [|injection Hpages as <-; auto].
      apply bind_Ok in Hpages as (content & _ & [= <-]). auto. }
    destruct Hsame as (-> & -> & ->). rewrite Hsort, Hnames, Hlen.
    assert (n <> 0%nat) by (rewrite <- Hlen; discriminate).
    replace (Nat.max 1 n) with n by lia.
    unfold id_length. repeat split; lia.
Qed.

Lemma journal_pages_follow_documents_witness :
  exists entry pos',
    create_journal_entry counting_tape ∅ None two_page_resource 0
      = Ok (entry, pos') /\
    map page_sort (entry_pages entry) = [0%nat; 1%nat] /\
    map page_name (entry_pages entry) = [PStr "Main"; PStr "History"] /\
    pos' = 48%nat.
Proof.
  eexists. eexists. split; [reflexivity|].
  destruct (journal_pages_follow_documents counting_tape ∅ None
              two_page_resource 0 _ _ eq_refl)
    as (docs & Hdocs & _ & Hsort & Hnames & _ & Hpos).
  injection Hdocs as <-.
  split; [exact Hsort|]. split; [|exact Hpos].
  apply Hnames. discriminate.
Defined.

(** ** The actor and item builders *)

Lemma gather_fold (image_map : gmap string string) (docs : list value) :
  forall text0 text,
  foldM (gather_step image_map) docs text0 = Ok text ->
  exists htmls,
    mapM (fun doc => convert_prosemirror_to_html
                       (field "content" (PDict []) doc) image_map None)
         (List.filter (has_type "page") docs) = Ok (map PStr htmls) /\
    text = text0 +:+ concat_all htmls.
Proof.
  induction docs as [|doc docs IH]; intros text0 text H.
  - injection H as <-. exists []. split; [reflexivity|].
    simpl. induction text0 as [|c t IHt]; [reflexivity|].
    change (String c t = String c (t +:+ "")). now rewrite <- IHt.
  - cbn [foldM] in H. apply bind_Ok in H as (text1 & Hstep & H).
    unfold gather_step in Hstep.
    apply bind_Ok in Hstep as (ty & Hty & Hstep).
    destruct doc as [| | | | |m]; try discriminate. injection Hty as <-.
    cbn [List.filter].
    change (py_eq_str (default PNone (dict_get "type" m)) "page")
      with (has_type "page" (PDict m)) in Hstep.
    destruct (has_type "page" (PDict m)).
    + apply bind_Ok in Hstep as (content & Hcontent & Hstep).
      injection Hcontent as <-.
      apply bind_Ok in Hstep as (html & Hhtml & Hstep).
      destruct html as [| | |h| |]; try discriminate. injection Hstep as <-.
      destruct (IH _ _ H) as (htmls & Hm & ->).
      exists (h :: htmls). cbn [mapM field]. rewrite Hhtml. cbn [bind].
      rewrite Hm. split; [reflexivity|].
      cbn [concat_all foldr]. now rewrite append_assoc.
    + injection Hstep as <-. exact (IH _ _ H).
Qed.

(** X16.  The biography an actor entry carries is the concatenation,
    in document order, of the bodies of the page-kind documents, each
    rendered by the transducer with the asset table and without the
    identifier table; the builder draws one identifier. *)
Theorem actor_biography_concatenates (tape : nat -> nat) (resource : value)
    (image_map : gmap string string) (pos : nat) (a : actor) (pos' : nat) :
  create_actor_entry tape resource image_map pos = Ok (a, pos') ->
  exists docs htmls,
    py_iter (field "documents" (PList []) resource) = Ok docs /\
    mapM (fun doc => convert_prosemirror_to_html
                       (field "content" (PDict []) doc) image_map None)
         (List.filter (has_type "page") docs) = Ok (map PStr htmls) /\
    actor_biography a = concat_all htmls /\
    pos' = (pos + id_length)%nat.
Proof.
  unfold create_actor_entry. rewrite (generate_id_eq tape pos). intros H.
  apply bind_Ok in H as (name & Hname & H).
  apply bind_Ok in H as (properties & _ & H).
  apply bind_Ok in H as (props & _ & H).
  apply bind_Ok in H as (img & _ & H).
  apply bind_Ok in H as (documents & Hdocuments & H).
  apply bind_Ok in H as (docs & Hdocs & H).
  apply bind_Ok in H as (bio & Hbio & H).
  apply bind_Ok in H as (lid & _ & H).
  apply bind_Ok in H as (tags & _ & H).
  injection H as <- <-.
  destruct resource as [| | | | |d]; try discriminate.
  injection Hdocuments as <-.
  apply gather_fold in Hbio as (htmls & Hm & ->).
  exists docs, htmls. auto.
Qed.

Lemma actor_biography_concatenates_witness :
  exists a pos',
    create_actor_entry counting_tape two_page_resource ∅ 0 = Ok (a, pos') /\
    actor_biography a = "<em><strong>a<b</strong></em>z<hr />".
Proof.
  eexists. eexists. split; [reflexivity|].
  destruct (actor_biography_concatenates counting_tape two_page_resource ∅ 0
              _ _ eq_refl) as (docs & htmls & Hdocs & Hm & Hbio & _).
  injection Hdocs as <-. rewrite Hbio.
  destruct htmls as [|h1 [|h2 [|h3 htmls]]]; try discriminate.
  injection Hm as <- <-. reflexivity.
Defined.

Lemma first_local_image_defaults (image_map : gmap string string)
    (props : list value) (d1 d2 : string) :
  match first_local_image image_map props d1,
        first_local_image image_map props d2 with
  | Ok x, Ok y =>
      (x = d1 /\ y = d2) \/ (x = y /\ exists u, image_map !! u = Some x)
  | Raise e, Raise e' => e = e'
  | _, _ => False
  end.
Proof.
  induction props as [|prop props IH]; simpl; [auto|].
  destruct (py_get prop "type" PNone) as [ty|e]; simpl; [|reflexivity].
  destruct (py_eq_str ty "IMAGE"); [|exact IH].
  destruct (py_get prop "data" (PDict [])) as [data|e]; simpl; [|reflexivity].
  destruct (py_get data "url" (PStr "")) as [url|e]; simpl; [|reflexivity].
  destruct (if py_truthy url then image_map_lookup image_map url else Ok None)
    as [[path|]|e] eqn:Hl; simpl; [|exact IH|reflexivity].
  right. split; [reflexivity|].
  destruct (py_truthy url); [|discriminate].
  apply image_map_lookup_range in Hl as (u & _ & Hu). eauto.
Qed.

(** X17.  On every resource the actor and the item builder behave
    alike: both raise the same exception, or both return, with the same
    identifier, name, text (biography and description), provenance and
    generator state.  Their images are the two default icons, or one
    and the same local path stored in the asset table. *)
Theorem actor_and_item_agree (tape : nat -> nat) (resource : value)
    (image_map : gmap string string) (pos : nat) :
  match create_actor_entry tape resource image_map pos,
        create_item_entry tape resource image_map pos with
  | Ok (a, p), Ok (i, p') =>
      p = p' /\
      actor_id a = item_id i /\
      actor_name a = item_name i /\
      actor_biography a = item_description i /\
      actor_legendkeeper_id a = item_legendkeeper_id i /\
      actor_tags a = item_tags i /\
      ((actor_img a = "icons/svg/mystery-man.svg" /\
        item_img i = "icons/svg/item-bag.svg") \/
       (actor_img a = item_img i /\
        exists u, image_map !! u = Some (actor_img a)))
  | Raise e, Raise e' => e = e'
  | _, _ => False
  end.
Proof.
  unfold create_actor_entry, create_item_entry.
  destruct (generate_id tape id_length pos) as [gid pos1].
  destruct (py_get resource "name" (PStr "Untitled")) as [name|e];
    cbn [bind]; [|reflexivity].
  destruct (py_get resource "properties" (PList [])) as [properties|e];
    cbn [bind]; [|reflexivity].
  destruct (py_iter properties) as [props|e]; cbn [bind]; [|reflexivity].
  pose proof (first_local_image_defaults image_map props
                "icons/svg/mystery-man.svg" "icons/svg/item-bag.svg") as Himg.
  destruct (first_local_image image_map props "icons/svg/mystery-man.svg")
    as [x|e1], (first_local_image image_map props "icons/svg/item-bag.svg")
    as [y|e2]; cbn [bind]; try contradiction; [|exact Himg].
  destruct (py_get resource "documents" (PList [])) as [documents|e];
    cbn [bind]; [|reflexivity].
  destruct (py_iter documents) as [docs|e]; cbn [bind]; [|reflexivity].
  destruct (foldM (gather_step image_map) docs "") as [text|e];
    cbn [bind]; [|reflexivity].
  destruct (py_get resource "id" (PStr "")) as [lid|e];
    cbn [bind]; [|reflexivity].
  destruct (py_get resource "tags" (PList [])) as [tags|e];
    cbn [bind]; [|reflexivity].
  cbn. repeat split; try reflexivity. exact Himg.
Qed.


(** ** The passes of [main] *)

Lemma nth_id_shift tape pos i :
  nth_id tape (pos + id_length) i = nth_id tape pos (S i).
Proof.
  unfold nth_id, id_length.
  now replace (pos + 16 + 16 * i)%nat with (pos + 16 * S i)%nat by lia.
Qed.

Lemma resolve_step_inv tape tbl pos (r : value) tbl' pos' :
  resolve_step tape (tbl, pos) r = Ok (tbl', pos') ->
  exists k t,
    source_key r = Ok k /\ classify_resource r = Ok t /\
    tbl' = <[ k := {| id := nth_id tape pos 0; type := t |} ]> tbl /\
    pos' = (pos + id_length)%nat.
Proof.
  unfold resolve_step, source_key.
  rewrite (generate_id_eq tape pos). intros H.
  apply bind_Ok in H as (lid & Hlid & H).
  apply bind_Ok in H as (t & Ht & H).
  apply bind_Ok in H as (k & Hk & H).
  injection H as <- <-. exists k, t. rewrite Hlid. cbn [bind].
  split; [exact Hk|]. split; [exact Ht|]. split; [|reflexivity].
  unfold nth_id, id_length. now replace (pos + 16 * 0)%nat with pos by lia.
Qed.

Lemma resolve_loop_general tape (resources : list value) :
  forall tbl0 pos tbl pos',
  foldM (resolve_step tape) resources (tbl0, pos) = Ok (tbl, pos') ->
  pos' = (pos + id_length * List.length resources)%nat /\
  exists keys,
    mapM source_key resources = Ok keys /\
    dom tbl = dom tbl0 ∪ list_to_set keys /\
    (forall k, k ∉ keys -> tbl !! k = tbl0 !! k) /\
    (forall i r k,
       resources !! i = Some r -> keys !! i = Some k ->
       (forall j, (i < j)%nat -> keys !! j <> Some k) ->
       exists t, classify_resource r = Ok t /\
                 tbl !! k = Some {| id := nth_id tape pos i; type := t |}).
Proof.
  induction resources as [|r rs IH]; intros tbl0 pos tbl pos' H.
  - injection H as <- <-. split; [unfold id_length; simpl; lia|].
    exists []. split; [reflexivity|].
    split; [simpl; now rewrite (right_id_L ∅ (∪))|].
    split; [reflexivity|]. intros i r k Hr. discriminate.
  - cbn [foldM] in H. apply bind_Ok in H as ([tbl1 pos1] & Hstep & H).
    apply resolve_step_inv in Hstep as (k0 & t0 & Hk0 & Ht0 & -> & ->).
    destruct (IH _ _ _ _ H) as (-> & keys & Hkeys & Hdom & Hout & Hin).
    split; [unfold id_length; simpl; lia|].
    exists (k0 :: keys). cbn [mapM]. rewrite Hk0, Hkeys. cbn [bind].
    split; [reflexivity|]. split.
    { rewrite Hdom, dom_insert_L, list_to_set_cons.
      rewrite (comm_L (∪) {[k0]} (dom tbl0)).
      now rewrite <- !(assoc_L (∪)). }
    split.
    { intros k Hk. apply not_elem_of_cons in Hk as [Hne Hk].
      rewrite (Hout k Hk). now rewrite lookup_insert_ne. }
    intros i r' k Hr Hk Hlast. destruct i as [|i].
    + injection Hr as <-. injection Hk as <-. exists t0. split; [exact Ht0|].
      rewrite Hout; [apply lookup_insert_eq|].
      intros Hel. apply list_elem_of_lookup in Hel as [j Hj].
      apply (Hlast (S j)); [lia | exact Hj].
    + destruct (Hin i r' k Hr Hk) as (t & Ht & Hl).
      { intros j Hj. apply (Hlast (S j)). lia. }
      exists t. split; [exact Ht|]. now rewrite <- nth_id_shift.
Qed.

(** X18.  When the identifier pass returns, it has drawn one identifier
    per resource, the keys of the table are exactly the source
    identifiers of the resources, so the table never has more entries
    than there are resources, and the entry of a source identifier
    pairs the identifier drawn for the LAST resource that carries it
    with the classifier's verdict for that resource: an earlier
    resource with the same identifier is overwritten. *)
Theorem resource_id_map_last_wins (tape : nat -> nat)
    (resources : list value) (pos : nat)
    (tbl : gmap key mapping) (pos' : nat) :
  build_resource_id_map tape resources pos = Ok (tbl, pos') ->
  pos' = (pos + id_length * List.length resources)%nat /\
  exists keys,
    mapM source_key resources = Ok keys /\
    dom tbl = list_to_set keys /\
    (size tbl <= List.length resources)%nat /\
    (forall i r k,
       resources !! i = Some r -> keys !! i = Some k ->
       (forall j, (i < j)%nat -> keys !! j <> Some k) ->
       exists t, classify_resource r = Ok t /\
                 tbl !! k = Some {| id := nth_id tape pos i; type := t |}).
Proof.
  unfold build_resource_id_map. intros H.
  apply resolve_loop_general in H as (-> & keys & Hkeys & Hdom & _ & Hin).
  split; [reflexivity|]. exists keys. split; [exact Hkeys|].
  rewrite dom_empty_L, (left_id_L ∅ (∪)) in Hdom.
  split; [exact Hdom|]. split; [|exact Hin].
  rewrite <- size_dom, Hdom, <- (mapM_length _ _ _ Hkeys).
  clear. induction keys as [|k keys IH].
  - rewrite list_to_set_nil, size_empty. reflexivity.
  - rewrite list_to_set_cons, size_union_alt, size_singleton.
    assert (size (list_to_set keys ∖ {[k]} : gset key)
            <= size (list_to_set keys : gset key))%nat
      by (apply subseteq_size, subseteq_difference_l; reflexivity).
    simpl. lia.
Qed.

Lemma resource_id_map_last_wins_witness :
  exists tbl pos',
    build_resource_id_map counting_tape linked_resources 0 = Ok (tbl, pos') /\
    pos' = 64%nat /\
    tbl !! KStr "a"
      = Some {| id := "WXYZ0123456789ab"; type := "JournalEntry" |}.
Proof.
  eexists. eexists. split; [reflexivity|].
  destruct (resource_id_map_last_wins counting_tape linked_resources 0 _ _
              eq_refl) as (Hpos & keys & Hkeys & _ & _ & Hlast).
  split; [exact Hpos|].
  injection Hkeys as <-.
  destruct (Hlast 3%nat _ (KStr "a") eq_refl eq_refl) as (t & Ht & Hl).
  - intros [|[|[|[|j]]]] Hj; solve [lia | discriminate].
  - injection Ht as <-. exact Hl.
Defined.

Lemma odict_set_keys {V} (k : key) (v : V) (d : list (key * V)) :
  NoDup d.*1 ->
  NoDup (odict_set k v d).*1 /\
  (forall k', k' ∈ (odict_set k v d).*1 <-> k' = k \/ k' ∈ d.*1).
Proof.
  induction d as [|[k0 v0] d IH]; simpl; intros Hnd.
  - split; [apply NoDup_singleton|]. intros k'. rewrite list_elem_of_singleton.
    split; [auto|]. intros [?|H]; [assumption | inversion H].
  - apply NoDup_cons in Hnd as [Hk0 Hnd]. destruct (IH Hnd) as [IHn IHe].
    destruct (decide (k0 = k)) as [->|Hne]; simpl.
    + split; [now apply NoDup_cons|]. intros k'. rewrite elem_of_cons. tauto.
    + split.
      * apply NoDup_cons. split; [|exact IHn]. rewrite IHe. tauto.
      * intros k'. rewrite !elem_of_cons, IHe. tauto.
Qed.

Lemma odict_set_elem {V} (k : key) (v : V) (d : list (key * V)) kd :
  kd ∈ odict_set k v d -> kd = (k, v) \/ kd ∈ d.
Proof.
  induction d as [|[k0 v0] d IH]; simpl.
  - rewrite list_elem_of_singleton. auto.
  - destruct (decide (k0 = k)) as [->|Hne]; rewrite !elem_of_cons; [tauto|].
    intros [?|H]; [tauto|]. destruct (IH H); tauto.
Qed.

Lemma table_of_odict_set (k : key) (data : resolved)
    (fids : list (key * resolved)) :
  NoDup fids.*1 ->
  table_of (odict_set k data fids) = <[ k := mapping_of data ]> (table_of fids).
Proof.
  unfold table_of. induction fids as [|[k0 v0] d IH]; intros Hnd.
  - reflexivity.
  - rewrite fmap_cons in Hnd. apply NoDup_cons in Hnd as [Hk0 Hnd].
    cbn [odict_set]. destruct (decide (k0 = k)) as [->|Hne];
      rewrite !fmap_cons, !list_to_map_cons; cbn [fst snd].
    + now rewrite insert_insert_eq.
    + rewrite (IH Hnd). apply insert_insert_ne. congruence.
Qed.

Lemma id_map_step_inv tape tbl fids pos (r : value) tbl' fids' pos' :
  id_map_step tape (tbl, fids, pos) r = Ok (tbl', fids', pos') ->
  exists k data,
    tbl' = <[ k := mapping_of data ]> tbl /\
    fids' = odict_set k data fids /\
    r_resource data = r /\
    source_key r = Ok k /\
    (r_doc_type data = "JournalEntry" \/ r_doc_type data = "Scene") /\
    resolve_step tape (tbl, pos) r = Ok (tbl', pos').
Proof.
  unfold id_map_step, resolve_step, source_key.
  destruct (generate_id tape id_length pos) as [fid pos1]. intros H.
  apply bind_Ok in H as (lid & Hlid & H).
  apply bind_Ok in H as (t & Ht & H).
  apply bind_Ok in H as (k & Hk & H).
  injection H as <- <- <-.
  exists k, {| r_foundry_id := fid; r_resource := r; r_doc_type := t |}.
  rewrite Hlid. cbn [bind]. rewrite Ht, Hk. cbn [bind].
  repeat split; try reflexivity.
  destruct (classify_verdict_closed r t Ht); auto.
Qed.

Lemma id_map_loop tape (all : list value) (resources : list value) :
  forall tbl fids pos tbl' fids' pos',
  foldM (id_map_step tape) resources (tbl, fids, pos) = Ok (tbl', fids', pos') ->
  (forall r, r ∈ resources -> r ∈ all) ->
  NoDup fids.*1 -> tbl = table_of fids -> Forall (recorded all) fids ->
  NoDup fids'.*1 /\ tbl' = table_of fids' /\ Forall (recorded all) fids' /\
  foldM (resolve_step tape) resources (tbl, pos) = Ok (tbl', pos').
Proof.
  induction resources as [|r rs IH];
    intros tbl fids pos tbl' fids' pos' H Hall Hnd Htbl Hrec.
  - injection H as <- <- <-. auto.
  - cbn [foldM] in H |- *.
    apply bind_Ok in H as ([[tbl1 fids1] pos1] & Hstep & H).
    apply id_map_step_inv in Hstep
      as (k & data & -> & -> & Hr & Hk & Hty & Hres).
    rewrite Hres. cbn [bind].
    apply (IH _ _ _ _ _ _ H).
    + intros r' Hr'. apply Hall. now right.
    + apply (odict_set_keys k data fids Hnd).
    + rewrite Htbl. symmetry. now apply table_of_odict_set.
    + apply Forall_forall. intros kd Hkd.
      apply odict_set_elem in Hkd as [->|Hkd].
      * unfold recorded. cbn [fst snd]. rewrite Hr.
        split; [exact Hty|]. split; [exact Hk|]. apply Hall. left.
      * rewrite Forall_forall in Hrec. now apply Hrec.
Qed.

Lemma convert_loop tape image_map tbl (items : list (key * resolved)) :
  forall j0 s0 p0 j s p,
  foldM (convert_step tape image_map tbl) items (j0, s0, p0) = Ok (j, s, p) ->
  exists jn sn,
    j = (j0 ++ jn)%list /\ s = (s0 ++ sn)%list /\
    Forall2 (journal_of tape image_map tbl) jn (List.filter is_journal items) /\
    Forall2 (scene_of tape image_map) sn (List.filter is_scene items).
Proof.
  induction items as [|kd items IH]; intros j0 s0 p0 j s p H.
  - injection H as <- <- <-. exists [], []. rewrite !app_nil_r.
    repeat split; constructor.
  - cbn [foldM] in H. apply bind_Ok in H as ([[j1 s1] p1] & Hstep & H).
    destruct (IH _ _ _ _ _ _ H) as (jn & sn & -> & -> & Hj & Hs).
    unfold convert_step in Hstep.
    apply bind_Ok in Hstep as (name & _ & Hstep).
    cbn [List.filter]. unfold is_journal at 1, is_scene at 1.
    destruct (String.eqb (r_doc_type (snd kd)) "JournalEntry"); cbn [negb andb].
    + apply bind_Ok in Hstep as ([e0 q'] & He0 & Hstep).
      injection Hstep as <- <- <-.
      eexists (_ :: jn), sn. rewrite <- !app_assoc.
      split; [reflexivity|]. split; [reflexivity|]. split; [|exact Hs].
      constructor; [|exact Hj]. split; [reflexivity|].
      exists e0, p0, q'. auto.
    + destruct (String.eqb (r_doc_type (snd kd)) "Scene").
      * apply bind_Ok in Hstep as ([e0 q'] & He0 & Hstep).
        injection Hstep as <- <- <-.
        exists jn. eexists (_ :: sn). rewrite <- !app_assoc.
        split; [reflexivity|]. split; [reflexivity|]. split; [exact Hj|].
        constructor; [|exact Hs]. split; [reflexivity|].
        exists e0, p0, q'. auto.
      * injection Hstep as <- <- <-. exists jn, sn. auto.
Qed.

Lemma journal_entry_provenance tape image_map resource_id_map
    (resource : value) pos e pos' :
  create_journal_entry tape image_map resource_id_map resource pos
    = Ok (e, pos') ->
  entry_legendkeeper_id e = field "id" (PStr "") resource /\
  entry_tags e = field "tags" (PList []) resource /\
  entry_name e = field "name" (PStr "Untitled") resource /\
  is_dict resource = true.
Proof.
  unfold create_journal_entry.
  destruct (generate_id tape id_length pos) as [rid pos1]. intros H.
  apply bind_Ok in H as (name & Hname & H).
  destruct resource as [| | | | |d]; try discriminate. injection Hname as <-.
  apply bind_Ok in H as (documents & _ & H).
  apply bind_Ok in H as (docs & _ & H).
  apply bind_Ok in H as ([pages pos2] & _ & H).
  destruct (match pages with [] => _ | _ :: _ => _ end) as [pages' pos3].
  apply bind_Ok in H as (banner & _ & H).
  apply bind_Ok in H as (banner_url & _ & H).
  apply bind_Ok in H as (local & _ & H).
  apply bind_Ok in H as (pages'' & _ & H).
  apply bind_Ok in H as (lid & Hlid & H).
  apply bind_Ok in H as (tags & Htags & H).
  injection Hlid as <-. injection Htags as <-. injection H as <- <-.
  auto.
Qed.

Lemma scene_entry_provenance tape image_map (resource : value) pos s pos' :
  create_scene_entry tape resource image_map pos = Ok (s, pos') ->
  scene_legendkeeper_id s = field "id" (PStr "") resource /\
  scene_tags s = field "tags" (PList []) resource /\
  scene_name s = field "name" (PStr "Untitled Scene") resource /\
  is_dict resource = true.
Proof.
  unfold create_scene_entry.
  destruct (generate_id tape id_length pos) as [rid pos1]. intros H.
  apply bind_Ok in H as (name & Hname & H).
  destruct resource as [| | | | |d]; try discriminate. injection Hname as <-.
  apply bind_Ok in H as (documents & _ & H).
  apply bind_Ok in H as (docs & _ & H).
  apply bind_Ok in H as (map_doc & _ & H).
  apply bind_Ok in H as (bg & _ & H).
  apply bind_Ok in H as (bg' & _ & H).
  apply bind_Ok in H as (lid & Hlid & H).
  apply bind_Ok in H as (tags & Htags & H).
  injection Hlid as <-. injection Htags as <-. injection H as <- <-.
  auto.
Qed.

Lemma Forall2_elem_r {A B} (R : A -> B -> Prop) (l : list A) (l' : list B) y :
  Forall2 R l l' -> y ∈ l' -> exists x, x ∈ l /\ R x y.
Proof.
  induction 1 as [|x y' l l' Hxy _ IH]; intros Hy; [inversion Hy|].
  apply elem_of_cons in Hy as [->|Hy].
  - exists x. split; [left | exact Hxy].
  - destruct (IH Hy) as (x' & Hx' & HR). exists x'. split; [now right | exact HR].
Qed.

Lemma Forall2_elem_l {A B} (R : A -> B -> Prop) (l : list A) (l' : list B) x :
  Forall2 R l l' -> x ∈ l -> exists y, y ∈ l' /\ R x y.
Proof.
  induction 1 as [|x' y l l' Hxy _ IH]; intros Hx; [inversion Hx|].
  apply elem_of_cons in Hx as [->|Hx].
  - exists y. split; [left | exact Hxy].
  - destruct (IH Hx) as (y' & Hy' & HR). exists y'. split; [now right | exact HR].
Qed.

Lemma convert_resources_inv tape image_map (resources : list value) pos
    tbl journals scenes :
  convert_resources tape image_map resources pos = Ok (tbl, journals, scenes) ->
  exists fids pos1,
    NoDup fids.*1 /\ tbl = table_of fids /\
    Forall (recorded resources) fids /\
    build_resource_id_map tape resources pos = Ok (tbl, pos1) /\
    Forall2 (journal_of tape image_map tbl) journals
            (List.filter is_journal fids) /\
    Forall2 (scene_of tape image_map) scenes (List.filter is_scene fids).
Proof.
  unfold convert_resources. intros H.
  apply bind_Ok in H as ([[tbl1 fids] pos1] & Hpass1 & H).
  apply bind_Ok in H as ([[j s] pos2] & Hpass2 & H).
  injection H as <- <- <-.
  apply (id_map_loop tape resources) in Hpass1
    as (Hnd & Htbl & Hrec & Hbuild);
    [|auto|constructor|reflexivity|constructor].
  apply convert_loop in Hpass2 as (jn & sn & -> & -> & Hj & Hs).
  exists fids, pos1. cbn [app]. unfold build_resource_id_map.
  repeat split; assumption.
Qed.

Lemma table_of_lookup (fids : list (key * resolved)) k m :
  NoDup fids.*1 ->
  table_of fids !! k = Some m <->
  exists data, (k, data) ∈ fids /\ m = mapping_of data.
Proof.
  intros Hnd. unfold table_of.
  rewrite <- elem_of_list_to_map.
  - rewrite list_elem_of_fmap. split.
    + intros ([k' data] & [= -> ->] & Hin). eauto.
    + intros (data & Hin & ->). exists (k, data). auto.
  - rewrite <- list_fmap_compose. exact Hnd.
Qed.

Lemma source_key_field (r : value) k :
  source_key r = Ok k -> is_dict r = true ->
  py_hash (field "id" (PStr "") r) = Ok k.
Proof.
  destruct r; try discriminate. intros H _. exact H.
Qed.

(** X19.  When the two passes of [main] return, every entry of the
    identifier table has its record: an entry of kind JournalEntry is
    the identifier of a journal entry in the journal list, an entry of
    kind Scene that of a scene in the scene list, and that record
    carries the entry's key as its source identifier.  So every
    cross-reference token the transducer emits names a record that is
    written, in the pack of the kind it names. *)
Theorem every_table_entry_has_a_record (tape : nat -> nat)
    (image_map : gmap string string) (resources : list value) (pos : nat)
    (tbl : gmap key mapping) (journals : list journal_entry)
    (scenes : list scene) :
  convert_resources tape image_map resources pos = Ok (tbl, journals, scenes) ->
  forall k m,
    tbl !! k = Some m ->
    (type m = "JournalEntry" /\
     exists e, e ∈ journals /\ entry_id e = id m /\
               py_hash (entry_legendkeeper_id e) = Ok k) \/
    (type m = "Scene" /\
     exists s, s ∈ scenes /\ scene_id s = id m /\
               py_hash (scene_legendkeeper_id s) = Ok k).
Proof.
  intros H k m Hm.
  apply convert_resources_inv in H
    as (fids & pos1 & Hnd & -> & Hrec & _ & Hj & Hs).
  apply (table_of_lookup fids k m Hnd) in Hm as (data & Hin & ->).
  rewrite Forall_forall in Hrec.
  destruct (Hrec _ Hin) as ([Hty|Hty] & Hkey & _); cbn [fst snd] in *.
  - left. split; [exact Hty|].
    assert (Hf : (k, data) ∈ List.filter is_journal fids).
    { apply list_elem_of_In, filter_In. split; [now apply list_elem_of_In|].
      unfold is_journal. cbn [snd]. now rewrite Hty. }
    destruct (Forall2_elem_r _ _ _ _ Hj Hf)
      as (e & He & Hid & e0 & q & q' & He0 & _ & _ & Hlid & _).
    exists e. split; [exact He|]. split; [exact Hid|].
    apply journal_entry_provenance in He0 as (Hl0 & _ & _ & Hdict).
    rewrite Hlid, Hl0. now apply source_key_field.
  - right. split; [exact Hty|].
    assert (Hf : (k, data) ∈ List.filter is_scene fids).
    { apply list_elem_of_In, filter_In. split; [now apply list_elem_of_In|].
      unfold is_scene. cbn [snd]. now rewrite Hty. }
    destruct (Forall2_elem_r _ _ _ _ Hs Hf)
      as (s & Hs' & Hid & s0 & q & q' & Hs0 & _ & _ & Hlid & _).
    exists s. split; [exact Hs'|]. split; [exact Hid|].
    apply scene_entry_provenance in Hs0 as (Hl0 & _ & _ & Hdict).
    rewrite Hlid, Hl0. now apply source_key_field.
Qed.

Lemma journal_scene_partition (all : list value)
    (fids : list (key * resolved)) :
  Forall (recorded all) fids ->
  (List.length (List.filter is_journal fids)
   + List.length (List.filter is_scene fids))%nat = List.length fids.
Proof.
  induction 1 as [|kd fids ([Hty|Hty] & _) _ IH]; [reflexivity| |];
    cbn [List.filter]; unfold is_journal at 1, is_scene at 1;
    rewrite Hty; cbn [String.eqb negb andb List.length];
    cbn; rewrite <- IH; lia.
Qed.

(** X20.  When the two passes of [main] return, the journal entries
    and scenes together are as many as the table has entries, which is
    at most the number of resources (resources sharing a source
    identifier yield one record); and every record's identifier is the
    target identifier the table holds, under the record's own source
    identifier and with the record's kind. *)
Theorem records_match_table (tape : nat -> nat)
    (image_map : gmap string string) (resources : list value) (pos : nat)
    (tbl : gmap key mapping) (journals : list journal_entry)
    (scenes : list scene) :
  convert_resources tape image_map resources pos = Ok (tbl, journals, scenes) ->
  (List.length journals + List.length scenes)%nat = size tbl /\
  (size tbl <= List.length resources)%nat /\
  (forall e, e ∈ journals ->
     exists k, tbl !! k = Some {| id := entry_id e; type := "JournalEntry" |} /\
               py_hash (entry_legendkeeper_id e) = Ok k) /\
  (forall s, s ∈ scenes ->
     exists k, tbl !! k = Some {| id := scene_id s; type := "Scene" |} /\
               py_hash (scene_legendkeeper_id s) = Ok k).
Proof.
  intros H.
  apply convert_resources_inv in H
    as (fids & pos1 & Hnd & -> & Hrec & Hbuild & Hj & Hs).
  split; [|split; [|split]].
  - rewrite (Forall2_length _ _ _ Hj), (Forall2_length _ _ _ Hs).
    rewrite (journal_scene_partition resources fids Hrec).
    unfold table_of. rewrite map_size_list_to_map.
    + now rewrite length_fmap.
    + rewrite <- list_fmap_compose. exact Hnd.
  - unfold build_resource_id_map in Hbuild.
    apply resolve_loop_general in Hbuild as (_ & keys & Hkeys & Hdom & _).
    rewrite dom_empty_L, (left_id_L ∅ (∪)) in Hdom.
    rewrite <- size_dom, Hdom, <- (mapM_length _ _ _ Hkeys).
    clear. induction keys as [|k keys IH].
    + rewrite list_to_set_nil, size_empty. reflexivity.
    + rewrite list_to_set_cons, size_union_alt, size_singleton.
      assert (size (list_to_set keys ∖ {[k]} : gset key)
              <= size (list_to_set keys : gset key))%nat
        by (apply subseteq_size, subseteq_difference_l; reflexivity).
      simpl. lia.
  - intros e He.
    destruct (Forall2_elem_l _ _ _ _ Hj He)
      as ([k data] & Hin & Hid & e0 & q & q' & He0 & _ & _ & Hlid & _).
    apply list_elem_of_In, filter_In in Hin as [Hin Hty].
    apply list_elem_of_In in Hin.
    unfold is_journal in Hty. cbn [snd] in *. apply String.eqb_eq in Hty.
    exists k. split.
    + apply table_of_lookup; [exact Hnd|]. exists data. split; [exact Hin|].
      unfold mapping_of. now rewrite Hid, Hty.
    + rewrite Forall_forall in Hrec. destruct (Hrec _ Hin) as (_ & Hkey & _).
      apply journal_entry_provenance in He0 as (Hl0 & _ & _ & Hdict).
      rewrite Hlid, Hl0. now apply source_key_field.
  - intros s Hs'.
    destruct (Forall2_elem_l _ _ _ _ Hs Hs')
      as ([k data] & Hin & Hid & s0 & q & q' & Hs0 & _ & _ & Hlid & _).
    apply list_elem_of_In, filter_In in Hin as [Hin Hty].
    apply list_elem_of_In in Hin.
    unfold is_scene in Hty. cbn [snd] in *.
    apply andb_prop in Hty as [_ Hty]. apply String.eqb_eq in Hty.
    exists k. split.
    + apply table_of_lookup; [exact Hnd|]. exists data. split; [exact Hin|].
      unfold mapping_of. now rewrite Hid, Hty.
    + rewrite Forall_forall in Hrec. destruct (Hrec _ Hin) as (_ & Hkey & _).
      apply scene_entry_provenance in Hs0 as (Hl0 & _ & _ & Hdict).
      rewrite Hlid, Hl0. now apply source_key_field.
Qed.

(** X21.  When the two passes of [main] return, the table is the one
    the identifier pass builds over all resources, and every journal
    entry written has the pages and the name that the journal builder
    gives for an input resource with that complete table: a mention is
    resolved also when its target comes later in the input. *)
Theorem journals_rendered_with_full_table (tape : nat -> nat)
    (image_map : gmap string string) (resources : list value) (pos : nat)
    (tbl : gmap key mapping) (journals : list journal_entry)
    (scenes : list scene) :
  convert_resources tape image_map resources pos = Ok (tbl, journals, scenes) ->
  (exists pos1, build_resource_id_map tape resources pos = Ok (tbl, pos1)) /\
  (forall e, e ∈ journals ->
     exists r q e0 q',
       r ∈ resources /\
       create_journal_entry tape image_map (Some tbl) r q = Ok (e0, q') /\
       entry_pages e = entry_pages e0 /\
       entry_name e = entry_name e0).
Proof.
  intros H.
  apply convert_resources_inv in H
    as (fids & pos1 & Hnd & -> & Hrec & Hbuild & Hj & Hs).
  split; [eauto|]. intros e He.
  destruct (Forall2_elem_l _ _ _ _ Hj He)
    as ([k data] & Hin & Hid & e0 & q & q' & He0 & Hname & Hpages & _).
  apply list_elem_of_In, filter_In in Hin as [Hin _].
  apply list_elem_of_In in Hin.
  rewrite Forall_forall in Hrec. destruct (Hrec _ Hin) as (_ & _ & Hres).
  exists (r_resource data), q, e0, q'. auto.
Qed.

Lemma every_table_entry_has_a_record_witness :
  exists tbl journals scenes,
    convert_resources counting_tape map_table linked_resources 0
      = Ok (tbl, journals, scenes) /\
    tbl !! KStr "m" = Some {| id := "GHIJKLMNOPQRSTUV"; type := "Scene" |} /\
    exists s, s ∈ scenes /\ scene_id s = "GHIJKLMNOPQRSTUV".
Proof.
  eexists. eexists. eexists. split; [reflexivity|]. split; [reflexivity|].
  destruct (every_table_entry_has_a_record counting_tape map_table
              linked_resources 0 _ _ _ eq_refl (KStr "m")
              {| id := "GHIJKLMNOPQRSTUV"; type := "Scene" |} eq_refl)
    as [[Hty _]|(_ & s & Hs & Hid & _)]; [discriminate|].
  exists s. split; [exact Hs | exact Hid].
Defined.

Lemma records_match_table_witness :
  exists tbl journals scenes,
    convert_resources counting_tape map_table linked_resources 0
      = Ok (tbl, journals, scenes) /\
    (List.length journals + List.length scenes)%nat = 3%nat /\
    size tbl = 3%nat.
Proof.
  eexists. eexists. eexists. split; [reflexivity|].
  destruct (records_match_table counting_tape map_table linked_resources 0
              _ _ _ eq_refl) as (Hcount & _).
  split; [reflexivity | rewrite <- Hcount; reflexivity].
Defined.

Lemma journals_rendered_with_full_table_witness :
  exists tbl journals scenes,
    convert_resources counting_tape ∅ forward_resources 0
      = Ok (tbl, journals, scenes) /\
    (map page_content <$> (entry_pages <$> journals))
      = [[PStr "@UUID[JournalEntry.qrstuvwxyzABCDEF]{Bob}"];
         [PStr "<p>No content</p>"]] /\
    exists pos1,
      build_resource_id_map counting_tape forward_resources 0 = Ok (tbl, pos1).
Proof.
  eexists. eexists. eexists. split; [reflexivity|]. split; [reflexivity|].
  exact (proj1 (journals_rendered_with_full_table counting_tape ∅
                  forward_resources 0 _ _ _ eq_refl)).
Defined.
